(** * The execution engine of the judge server (src/server.js)

    A shallow embedding of the Piston-compatible endpoint, of the batch
    executor [handleBatchExecution] and of the process runner [runCommand],
    and of the single-run server that the file also holds: its endpoint and
    its four handlers ([handleCPP], [handlePython], [handleJava],
    [handleJS]).

    The JavaScript code talks to three collaborators that are not part of the
    repository: [child_process.exec], the [fs] module and [uuid].  They are a
    [Platform]: functions of the outside [World].  Every effect the code
    performs is also appended to a trace, in the order the code performs it.
    A computation has one of three outcomes: a value, a JavaScript exception,
    or a stop for good, when the server process ends or a promise the code
    awaits never settles.

    [exec] is a function of the platform and may do anything.  What Node's
    [exec] does with the [timeout] it is given is described apart
    ([node_exec]), over a child process, for the properties that are about
    the deadline. *)

From Stdlib Require Import ZArith String Ascii.
From stdpp Require Import base gmap strings list pretty.

Open Scope Z_scope.
Open Scope string_scope.
Open Scope list_scope.

(** ** JavaScript values the code inspects *)

(** [a === b] on two strings. *)
Notation "a === b" := (String.eqb a b) (at level 70, no associativity).

(** A string is truthy unless it is empty. *)
Definition truthy (s : string) : bool :=
  match s with
  | EmptyString => false
  | String _ _ => true
  end.

(** [x || d] for a string that may be undefined. *)
Definition str_or (x : option string) (d : string) : string :=
  match x with
  | Some s => if truthy s then s else d
  | None => d
  end.

(** [Number(x) || d] for a field that is absent or an integer: an absent
    field gives NaN, and NaN and 0 are both falsy. *)
Definition number_or (x : option Z) (d : Z) : Z :=
  match x with
  | Some n => if (n =? 0)%Z then d else n
  | None => d
  end.

Definition lower_ascii (c : ascii) : ascii :=
  let n := N_of_ascii c in
  if ((65 <=? n) && (n <=? 90))%N then ascii_of_N (n + 32) else c.

(** [s.toLowerCase()]: the letters A to Z are lowered and every other byte
    is kept.  This is the result of JavaScript on a string of ASCII
    characters ([ascii_only]).  On other strings JavaScript also lowers the
    capitals outside ASCII, so the text differs; membership in the list of
    accepted tags is decided the same way all the same: the tags are ASCII,
    and the one character outside ASCII that JavaScript lowers to ASCII
    text is the Kelvin sign, which gives a k, a letter that no tag has. *)
Fixpoint toLowerCase (s : string) : string :=
  match s with
  | EmptyString => EmptyString
  | String c r => String (lower_ascii c) (toLowerCase r)
  end.

(** [s.endsWith(suffix)]. *)
Definition endsWith (s suffix : string) : bool :=
  let n := String.length s in
  let m := String.length suffix in
  if (m <=? n)%nat then substring (n - m) m s === suffix else false.

(** [arr.includes(x)] on an array of strings. *)
Fixpoint includes (arr : list string) (x : string) : bool :=
  match arr with
  | [] => false
  | y :: r => (y === x) || includes r x
  end.

(** The string has no character outside ASCII; on such strings
    [toLowerCase] is that of JavaScript. *)
Fixpoint ascii_only (s : string) : bool :=
  match s with
  | EmptyString => true
  | String c r => (N_of_ascii c <? 128)%N && ascii_only r
  end.

(** An exception object: [err.message] and the constructor's name, which is
    what [String(err)] prints when the message is empty. *)
Record Exn := { exn_name : string; message : string }.

Definition String_of_exn (e : Exn) : string :=
  if truthy (message e) then exn_name e +:+ ": " +:+ message e else exn_name e.

(** ** Results of a command *)

(** The object [runCommand] resolves with.  The two literals the batch code
    synthesizes, [{ code: 0, stdout: '', stderr: '' }], have no [timeMs]. *)
Record CmdResult := {
  stdout : string;
  stderr : string;
  code : Z;
  timeMs : option Z
}.

(** [error.code] of the error [exec] hands to its callback: the exit code of
    the child, or the name of a system error, or nothing when the child was
    ended by a signal. *)
Inductive ErrCode :=
| CodeNumber (n : Z)
| CodeString (s : string)
| CodeNone.

Record ExecError := {
  killed : bool;
  signal : option string;
  err_code : ErrCode
}.

(** The three arguments of the callback of [exec]. *)
Record ExecCallback := {
  cb_error : option ExecError;
  cb_stdout : string;
  cb_stderr : string
}.

(** What becomes of a call of [exec] and of the writes to the child's stdin
    that follow it.  The call throws when [exec] refuses its options (a
    negative timeout is an ERR_OUT_OF_RANGE) and no child is started.  The
    code that awaits the call is never resumed ([Breaks]) when a write to
    the stdin of the child fails, which raises an 'error' event on a stream
    without a listener and ends the server process, and when the child never
    ends.  Otherwise the callback is called once the child has ended. *)
Inductive ExecResult :=
| Calls (cb : ExecCallback)
| Throws (e : Exn)
| Breaks.

(** What [runCommand] asks of [exec]: the command, the options object, and
    the chunks written to the child's stdin before it is closed. *)
Record ExecRequest := {
  req_cmd : string;
  req_cwd : string;
  req_timeout : Z;
  req_maxBuffer : Z;
  req_stdin : list string
}.

(** ** The outside world *)

Record World := {
  clock : Z;                      (* Date.now() *)
  dirs : gset string;             (* directories that exist *)
  store : gmap string string;     (* regular files and their content *)
  seed : N                        (* whatever else the platform depends on *)
}.

Inductive FsCall :=
| Mkdir (path : string)
| WriteFile (path content : string)
| Rm (path : string).

Record Platform := {
  (* child_process.exec and the stdin of the child, up to the call of the
     callback *)
  exec : ExecRequest -> World -> ExecResult * World;
  (* uuid.v4 *)
  uuidv4 : World -> string * World;
  (* the exception an fs call throws, if it throws *)
  fs_throws : FsCall -> World -> option Exn
}.

(** ** The deadline of [exec]

    [child_process.exec] belongs to Node.  This is what it does with the
    options the code passes, [timeout] and [maxBuffer], and with its default
    kill signal SIGTERM, for a child that is described by what it does when
    it is left alone and by what the signal does to it.  A timer is set when
    the timeout is positive; when it fires while the child runs, [exec]
    stops reading the output, marks the call as killed and sends SIGTERM.
    It does the same, with an error of its own, when the output exceeds
    [maxBuffer].  The callback is called when the child has ended, or some
    time after.  The timer is taken to fire on time. *)

(** How a child ends when [exec] does not end it. *)
Inductive Ending :=
| Exits (code : Z)
| DiesOf (sig : string).

Record Child := {
  (* the ms it runs when it is left alone; None when it does not end *)
  runs_for : option Z;
  ending : Ending;
  (* the time at which its output exceeds maxBuffer, if it does *)
  overflows_at : option Z;
  (* stdout and stderr as [exec] has kept them by a time *)
  captured : Z -> string * string;
  (* SIGTERM does not end it: it handles or ignores the signal *)
  survives_SIGTERM : bool;
  (* the writes to its stdin succeed *)
  takes_stdin : bool;
  (* the directories and the files by a time *)
  leaves : Z -> World;
  (* the ms between its end and the call of the callback *)
  lag : N
}.

Record NodeRuntime := {
  spawn : ExecRequest -> World -> Child;
  (* the ERR_OUT_OF_RANGE that [exec] throws for a timeout it refuses *)
  range_error : Z -> Exn
}.

(** The child has not ended by itself at the time [t]. *)
Definition alive_at (ch : Child) (t : Z) : bool :=
  match runs_for ch with
  | Some d => (t <? d)%Z
  | None => true
  end.



(** The error of the callback for a child that ended as it does when it is
    left alone: none for the exit code 0. *)
Definition exit_error (killed : bool) (e : Ending) : option ExecError :=
  match e with
  | Exits c =>
      if (c =? 0)%Z then None
      else Some {| killed := killed; signal := None; err_code := CodeNumber c |}
  | DiesOf sg =>
      Some {| killed := killed; signal := Some sg; err_code := CodeNone |}
  end.

(** The time at which [exec] sees the output exceed [maxBuffer], if it does:
    while the child runs, and before the deadline when there is one. *)
Definition overflow (ch : Child) (timeout : Z) : option Z :=
  match overflows_at ch with
  | Some o =>
      let in_time := if (0 <? timeout)%Z then (o <=? timeout)%Z else true in
      let in_life :=
        match runs_for ch with Some d => (o <=? d)%Z | None => true end in
      if in_time && in_life then Some o else None
  | None => None
  end.

Definition ERR_CHILD_PROCESS_STDIO_MAXBUFFER : ExecError :=
  {| killed := false; signal := None;
     err_code := CodeString "ERR_CHILD_PROCESS_STDIO_MAXBUFFER" |}.

(** The wait of [exec] for the child: the time at which the child has ended,
    the time up to which its output was read, and the error handed to the
    callback; nothing when the child never ends. *)
Definition wait (ch : Child) (timeout : Z)
    : option (Z * Z * option ExecError) :=
  let left_alone (killed : bool) (read_until : option Z) :=
    match runs_for ch with
    | Some d => Some (d, default d read_until, exit_error killed (ending ch))
    | None => None
    end in
  match overflow ch timeout with
  | Some o =>
      if survives_SIGTERM ch then
        match runs_for ch with
        | Some d => Some (d, o, Some ERR_CHILD_PROCESS_STDIO_MAXBUFFER)
        | None => None
        end
      else Some (o, o, Some ERR_CHILD_PROCESS_STDIO_MAXBUFFER)
  | None =>
      if (0 <? timeout)%Z && alive_at ch timeout then
        if survives_SIGTERM ch then left_alone true (Some timeout)
        else Some (timeout, timeout,
                   Some {| killed := true; signal := Some "SIGTERM";
                           err_code := CodeNone |})
      else left_alone false None
  end.

Definition at_time (t : Z) (w : World) : World :=
  {| clock := t; dirs := dirs w; store := store w; seed := seed w |}.

(** [exec] with its callback, and the writes to the stdin of the child. *)
Definition node_exec (N : NodeRuntime) (req : ExecRequest) (w : World)
    : ExecResult * World :=
  if (req_timeout req <? 0)%Z then (Throws (range_error N (req_timeout req)), w)
  else
    let ch := spawn N req w in
    let written := match req_stdin req with [] => false | _ :: _ => true end in
    if written && negb (takes_stdin ch) then (Breaks, w)
    else
      match wait ch (req_timeout req) with
      | Some (ended, read_until, error) =>
          (Calls {| cb_error := error;
                    cb_stdout := (captured ch read_until).1;
                    cb_stderr := (captured ch read_until).2 |},
           at_time (clock w + ended + Z.of_N (lag ch)) (leaves ch ended))
      | None => (Breaks, w)
      end.

(** ** Responses *)

(** The body of a response of the batch server: [{ error }] or
    [{ language, compile, run, results }].  A key whose value is undefined is
    left out by JSON, so [compile] is an option. *)
Inductive Body :=
| ErrorBody (error : string)
| JobBody (language : string) (compile : option CmdResult) (run : CmdResult)
          (results : list CmdResult).

Record Response := { status : Z; body : Body }.

(** ** Effects *)

Inductive Event :=
| EvMkdir (path : string)
| EvWriteFile (path content : string)
| EvExec (req : ExecRequest)
| EvRm (path : string)
| EvRespond (r : Response).

Record St := { world : World; trace : list Event }.

(** [Crash]: the computation has stopped for good, because the server
    process has ended or because the promise it awaits never settles;
    nothing runs after it, no [catch] and no [finally]. *)
Inductive Outcome (A : Type) :=
| Ok (a : A)
| Throw (e : Exn)
| Crash.
Arguments Ok {A} a.
Arguments Throw {A} e.
Arguments Crash {A}.

Definition M (A : Type) : Type := St -> Outcome A * St.

#[export] Instance M_ret : MRet M := fun A a s => (Ok a, s).

#[export] Instance M_bind : MBind M := fun A B f m s =>
  match m s with
  | (Ok a, s') => f a s'
  | (Throw e, s') => (Throw e, s')
  | (Crash, s') => (Crash, s')
  end.

Definition throw {A : Type} (e : Exn) : M A := fun s => (Throw e, s).

(** [try { body } catch (err) { handler }]. *)
Definition try_catch {A : Type} (body : M A) (handler : Exn -> M A) : M A :=
  fun s =>
    match body s with
    | (Ok a, s') => (Ok a, s')
    | (Throw e, s') => handler e s'
    | (Crash, s') => (Crash, s')
    end.

(** [try { body } catch (err) { handler } finally { fin }], where [body] and
    [handler] end in a [return]: the value is computed first, then [fin]
    runs, and an exception of [fin] replaces the value. *)
Definition try_catch_finally {A : Type} (body : M A) (handler : Exn -> M A)
    (fin : M unit) : M A :=
  fun s =>
    let '(r, s1) := try_catch body handler s in
    match r with
    | Crash => (Crash, s1)
    | _ =>
        match fin s1 with
        | (Ok _, s2) => (r, s2)
        | (Throw e, s2) => (Throw e, s2)
        | (Crash, s2) => (Crash, s2)
        end
    end.

Definition emit (ev : Event) (s : St) : St :=
  {| world := world s; trace := trace s ++ [ev] |}.

Definition set_world (w : World) (s : St) : St :=
  {| world := w; trace := trace s |}.

(** The pieces of a path between its slashes. *)
Fixpoint split_slash (s : string) : list string :=
  match s with
  | EmptyString => [EmptyString]
  | String c r =>
      if Ascii.eqb c "/" then EmptyString :: split_slash r
      else match split_slash r with
           | seg :: segs => String c seg :: segs
           | [] => [String c EmptyString]
           end
  end.

(** One step of [normalizeString] of the POSIX [path] module; [res] holds
    the segments kept so far, the last one first.  An empty segment and [.]
    are dropped; [..] removes the segment before it, unless there is none or
    it is [..] itself, and then it is kept in a relative path and dropped in
    an absolute one. *)
Definition push_segment (allowAboveRoot : bool) (res : list string)
    (seg : string) : list string :=
  if (seg === "") || (seg === ".") then res
  else if seg === ".." then
    match res with
    | [] => if allowAboveRoot then [".."] else []
    | last :: rest =>
        if last === ".." then (if allowAboveRoot then ".." :: res else res)
        else rest
    end
  else seg :: res.

(** [path.normalize(path)]. *)
Definition normalize (path : string) : string :=
  if negb (truthy path) then "."
  else
    let isAbsolute := String.prefix "/" path in
    let trailingSeparator := endsWith path "/" in
    let kept :=
      String.concat "/"
        (rev (fold_left (push_segment (negb isAbsolute)) (split_slash path) [])) in
    if negb (truthy kept) then
      if isAbsolute then "/" else if trailingSeparator then "./" else "."
    else
      let kept := if trailingSeparator then kept +:+ "/" else kept in
      if isAbsolute then "/" +:+ kept else kept.

(** [path.join(dir, name)] on two strings: the arguments that are not empty
    are joined with a slash and the result is normalized. *)
Definition join (dir name : string) : string :=
  if truthy dir then normalize (if truthy name then dir +:+ "/" +:+ name else dir)
  else if truthy name then normalize name
  else ".".

Definition dquote : string := String "034"%char EmptyString.

(** [path.join(dir, name)] when [name] may be undefined, which is a
    TypeError. *)
Definition path_join (dir : string) (name : option string) : M string :=
  match name with
  | None =>
      throw {| exn_name := "TypeError";
               message := "The " +:+ dquote +:+ "path" +:+ dquote
                          +:+ " argument must be of type string."
                          +:+ " Received undefined" |}
  | Some n => mret (join dir n)
  end.

(** [q] is [p] or lies below it, for two normalized absolute paths. *)
Definition under (p q : string) : bool :=
  (p === q) || String.prefix (p +:+ "/") q.

Definition add_dir (p : string) (w : World) : World :=
  {| clock := clock w; dirs := {[p]} ∪ dirs w; store := store w; seed := seed w |}.

Definition put_file (p c : string) (w : World) : World :=
  {| clock := clock w; dirs := dirs w; store := <[p := c]> (store w);
     seed := seed w |}.

Definition remove_tree (p : string) (w : World) : World :=
  {| clock := clock w;
     dirs := filter (fun q => negb (under p q)) (dirs w);
     store := filter (fun kv => negb (under p kv.1)) (store w);
     seed := seed w |}.

Section Engine.

Variable P : Platform.

Definition fs_call (c : FsCall) (ev : Event) (effect : World -> World) : M unit :=
  fun s =>
    match fs_throws P c (world s) with
    | Some e => (Throw e, emit ev s)
    | None => (Ok tt, set_world (effect (world s)) (emit ev s))
    end.

(** [fs.mkdirSync(p, { recursive: true })]. *)
Definition mkdirSync (p : string) : M unit :=
  fs_call (Mkdir p) (EvMkdir p) (add_dir p).

(** [fs.writeFileSync(p, c, "utf8")]. *)
Definition writeFileSync (p c : string) : M unit :=
  fs_call (WriteFile p c) (EvWriteFile p c) (put_file p c).

(** [fs.rmSync(p, { recursive: true, force: true })]. *)
Definition rmSync (p : string) : M unit :=
  fs_call (Rm p) (EvRm p) (remove_tree p).

(** [res.status(st).json(b)]. *)
Definition respond (st : Z) (b : Body) : M Response :=
  fun s =>
    let r := {| status := st; body := b |} in
    (Ok r, emit (EvRespond r) s).

(** ** runCommand *)

(** The request [runCommand] builds: [timeout: timeoutMs], a 10 MB
    [maxBuffer], and [inputStr] written to stdin when it is truthy. *)
Definition request (cmd cwd : string) (timeoutMs : Z) (inputStr : string)
    : ExecRequest :=
  {| req_cmd := cmd;
     req_cwd := cwd;
     req_timeout := timeoutMs;
     req_maxBuffer := 10 * 1024 * 1024;
     req_stdin := if truthy inputStr then [inputStr] else [] |}.

Definition killed_by_SIGTERM (error : option ExecError) : bool :=
  match error with
  | Some e =>
      killed e && match signal e with
                  | Some sg => sg === "SIGTERM"
                  | None => false
                  end
  | None => false
  end.

(** The callback given to [exec]. *)
Definition on_exit (timeMs : Z) (cb : ExecCallback) : CmdResult :=
  if killed_by_SIGTERM (cb_error cb) then
    {| stdout := ""; stderr := "Time limit exceeded"; code := 124;
       timeMs := Some timeMs |}
  else
    let code :=
      match cb_error cb with
      | Some e => match err_code e with
                  | CodeNumber n => n
                  | _ => 0
                  end
      | None => 0
      end in
    {| stdout := cb_stdout cb; stderr := cb_stderr cb; code := code;
       timeMs := Some timeMs |}.

(** The promise rejects when [exec] throws in its executor, and it never
    settles when the callback is never called. *)
Definition runCommand (cmd cwd : string) (timeoutMs : Z) (inputStr : string)
    : M CmdResult :=
  fun s =>
    let start := clock (world s) in
    let req := request cmd cwd timeoutMs inputStr in
    let '(out, w) := exec P req (world s) in
    let s' := set_world w (emit (EvExec req) s) in
    match out with
    | Calls cb =>
        let timeMs := clock w - start in
        (Ok (on_exit timeMs cb), s')
    | Throws e => (Throw e, s')
    | Breaks => (Crash, s')
    end.

(** ** handleBatchExecution: compile once, run once per input *)

Record SourceFile := { name : option string; content : option string }.

Record BatchResult := { compile : CmdResult; results : list CmdResult }.

(** [!name]. *)
Definition falsy (x : option string) : bool :=
  match x with
  | Some s => negb (truthy s)
  | None => true
  end.

(** The name a file is written under: the given one, or the default of the
    language; with no given name and none of the four languages, [name] stays
    as it was. *)
Definition file_name (language : string) (f : SourceFile) : option string :=
  let name := name f in
  if falsy name then
    if language === "cpp" then Some "main.cpp"
    else if language === "python" then Some "main.py"
    else if language === "java" then Some "Main.java"
    else if language === "javascript" then Some "main.js"
    else name
  else name.

(** Step 1, the loop over [files]. *)
Fixpoint write_files (language jobDir : string) (files : list SourceFile)
    : M unit :=
  match files with
  | [] => mret tt
  | f :: rest =>
      p ← path_join jobDir (file_name language f);
      writeFileSync p (str_or (content f) "");;
      write_files language jobDir rest
  end.

(** Step 2: the compile command of the language, if it has one, and the run
    command.  Without a compile command [compileRes] keeps its initial value. *)
Definition compile_step (language jobDir : string) (compileTimeout : Z)
    : M (CmdResult * string) :=
  let compileRes := {| code := 0; stdout := ""; stderr := ""; timeMs := None |} in
  let runCmd := "" in
  if language === "cpp" then
    compileRes ← runCommand "g++ -std=c++17 -O2 -pipe -static -s *.cpp -o main"
                   jobDir compileTimeout "";
    mret (compileRes, "./main")
  else if language === "java" then
    compileRes ← runCommand "javac *.java" jobDir compileTimeout "";
    mret (compileRes, "java Main")
  else if language === "python" then
    mret (compileRes, "python3 main.py")
  else if (language === "javascript") || (language === "node") then
    mret (compileRes, "node main.js")
  else
    mret (compileRes, runCmd).

(** Step 3, the loop over [inputs]; [acc] is the array [results]. *)
Fixpoint run_batch (runCmd jobDir : string) (runTimeout : Z)
    (inputs : list string) (acc : list CmdResult) : M (list CmdResult) :=
  match inputs with
  | [] => mret acc
  | input :: rest =>
      runRes ← runCommand runCmd jobDir runTimeout input;
      run_batch runCmd jobDir runTimeout rest (acc ++ [runRes])
  end.

Definition handleBatchExecution (language jobDir : string)
    (files : list SourceFile) (inputs : list string)
    (compileTimeout runTimeout : Z) : M BatchResult :=
  (* assigned at the top of the function and not read again *)
  let mainFile := "main" in
  let mainFile := if language === "python" then "main.py" else mainFile in
  let mainFile :=
    if (language === "javascript") || (language === "node") then "main.js"
    else mainFile in
  let mainFile := if language === "java" then "Main.java" else mainFile in
  let mainFile := if language === "cpp" then "main.cpp" else mainFile in
  write_files language jobDir files;;
  '(compileRes, runCmd) ← compile_step language jobDir compileTimeout;
  if negb (code compileRes =? 0)%Z then
    mret {| compile := compileRes; results := [] |}
  else
    rs ← run_batch runCmd jobDir runTimeout inputs [];
    mret {| compile := compileRes; results := rs |}.

(** ** The endpoint POST /api/v2/piston/execute *)

Record RequestBody := {
  language : option string;
  files : option (list SourceFile);
  stdin : option string;
  inputs : option (list string);
  compile_timeout : option Z;
  run_timeout : option Z
}.

Definition EXEC_DIR : string := "/tmp/executions".

Definition SUPPORTED : list string :=
  ["cpp"; "c++"; "python"; "java"; "javascript"; "node"; "js"].

Definition new_uuid : M string :=
  fun s => let '(id, w) := uuidv4 P (world s) in (Ok id, set_world w s).

(** [Array.isArray(inputs) && inputs.length > 0 ? inputs : [stdin || ""]]. *)
Definition batch_inputs (body : RequestBody) : list string :=
  match inputs body with
  | Some (i :: r) => i :: r
  | _ => [str_or (stdin body) ""]
  end.

(** The block of [try]. *)
Definition job_try (language jobDir : string) (files : list SourceFile)
    (batchInputs : list string) (compile_timeout run_timeout : Z)
    : M Response :=
  if negb (includes SUPPORTED language) then
    respond 400 (ErrorBody ("Unsupported language: " +:+ language))
  else
    let language := if language === "c++" then "cpp" else language in
    let language :=
      if (language === "node") || (language === "js") then "javascript"
      else language in
    result ← handleBatchExecution language jobDir files batchInputs
               compile_timeout run_timeout;
    let legacyRun :=
      match results result with
      | r :: _ => r
      | [] => {| code := 0; stdout := ""; stderr := ""; timeMs := None |}
      end in
    respond 200 (JobBody language (Some (compile result)) legacyRun
                   (results result)).

(** The block of [catch]: [err.message || String(err)]. *)
Definition job_catch (err : Exn) : M Response :=
  respond 500
    (ErrorBody (if truthy (message err) then message err else String_of_exn err)).

(** The block of [finally]. *)
Definition job_finally (jobDir : string) : M unit :=
  try_catch (rmSync jobDir) (fun _ => mret tt).

Definition piston_execute (body : RequestBody) : M Response :=
  let language := toLowerCase (str_or (language body) "") in
  let files := default [] (files body) in
  let batchInputs := batch_inputs body in
  let compile_timeout := number_or (compile_timeout body) 10000 in
  let run_timeout := number_or (run_timeout body) 3000 in
  jobId ← new_uuid;
  let jobDir := join EXEC_DIR jobId in
  mkdirSync jobDir;;
  try_catch_finally
    (job_try language jobDir files batchInputs compile_timeout run_timeout)
    job_catch
    (job_finally jobDir).

End Engine.

(** ** The single-run server: its handlers and its endpoint *)

Module Legacy.
Section Handlers.

Variable P : Platform.

(** What a handler returns: [{ run }] or [{ compile, run }]. *)
Record HandlerResult := {
  compile : option CmdResult;
  run : option CmdResult
}.

(** The loop of [handlePython] and of [handleJS], which differ in the default
    name [dflt] and in the extension [ext] only; the result is the final
    value of [mainFile]. *)
Fixpoint save_scripts (dflt ext jobDir : string) (files : list SourceFile)
    (mainFile : string) : M string :=
  match files with
  | [] => mret mainFile
  | f :: rest =>
      let name := str_or (name f) dflt in
      let mainFile := if endsWith name ext then name else mainFile in
      writeFileSync P (join jobDir name) (str_or (content f) "");;
      save_scripts dflt ext jobDir rest mainFile
  end.

Definition handlePython (jobDir : string) (files : list SourceFile)
    (stdin : string) (runTimeout : Z) : M HandlerResult :=
  mainFile ← save_scripts "main.py" ".py" jobDir files "main.py";
  runRes ← runCommand P ("python3 " +:+ mainFile) jobDir runTimeout
             (str_or (Some stdin) "");
  mret {| compile := None; run := Some runRes |}.

Definition handleJS (jobDir : string) (files : list SourceFile)
    (stdin : string) (runTimeout : Z) : M HandlerResult :=
  mainFile ← save_scripts "main.js" ".js" jobDir files "main.js";
  runRes ← runCommand P ("node " +:+ mainFile) jobDir runTimeout
             (str_or (Some stdin) "");
  mret {| compile := None; run := Some runRes |}.

(** The loop of [handleCPP] and of [handleJava], which differ in the default
    name only. *)
Fixpoint save_sources (dflt jobDir : string) (files : list SourceFile)
    : M unit :=
  match files with
  | [] => mret tt
  | f :: rest =>
      let name := str_or (name f) dflt in
      writeFileSync P (join jobDir name) (str_or (content f) "");;
      save_sources dflt jobDir rest
  end.

Definition handleCPP (jobDir : string) (files : list SourceFile)
    (stdin : string) (compileTimeout runTimeout : Z) : M HandlerResult :=
  save_sources "main.cpp" jobDir files;;
  compileRes ← runCommand P "g++ -std=c++17 -O2 -pipe -static -s *.cpp -o main"
                 jobDir compileTimeout "";
  if negb (code compileRes =? 0)%Z then
    mret {| compile := Some compileRes; run := None |}
  else
    runRes ← runCommand P "./main" jobDir runTimeout (str_or (Some stdin) "");
    mret {| compile := Some compileRes; run := Some runRes |}.

Definition handleJava (jobDir : string) (files : list SourceFile)
    (stdin : string) (compileTimeout runTimeout : Z) : M HandlerResult :=
  save_sources "Main.java" jobDir files;;
  compileRes ← runCommand P "javac *.java" jobDir compileTimeout "";
  if negb (code compileRes =? 0)%Z then
    mret {| compile := Some compileRes; run := None |}
  else
    runRes ← runCommand P "java Main" jobDir runTimeout (str_or (Some stdin) "");
    mret {| compile := Some compileRes; run := Some runRes |}.

(** The body of a response of the single-run server: [{ error }] or
    [{ language, ...result }]. *)
Inductive Body :=
| ErrorBody (error : string)
| JobBody (language : string) (result : HandlerResult).

Record Response := { status : Z; body : Body }.

(** [res.status(st).json(b)] of the single-run server; the response is the
    value of the handler and leaves no event in the trace. *)
Definition respond (st : Z) (b : Body) : M Response :=
  mret {| status := st; body := b |}.

(** The block of [try] of the single-run endpoint. *)
Definition job_try (language jobDir : string) (files : list SourceFile)
    (stdin : string) (compile_timeout run_timeout : Z) : M Response :=
  if (language === "cpp") || (language === "c++") then
    result ← handleCPP jobDir files stdin compile_timeout run_timeout;
    respond 200 (JobBody language result)
  else if language === "python" then
    result ← handlePython jobDir files stdin run_timeout;
    respond 200 (JobBody language result)
  else if language === "java" then
    result ← handleJava jobDir files stdin compile_timeout run_timeout;
    respond 200 (JobBody language result)
  else if (language === "javascript") || (language === "node")
          || (language === "js") then
    result ← handleJS jobDir files stdin run_timeout;
    respond 200 (JobBody language result)
  else
    respond 400 (ErrorBody ("Unsupported language: " +:+ language)).

(** The block of [catch]. *)
Definition job_catch (err : Exn) : M Response :=
  respond 500
    (ErrorBody (if truthy (message err) then message err else String_of_exn err)).

(** The endpoint POST /api/v2/piston/execute of the single-run server. *)
Definition piston_execute (body : RequestBody) : M Response :=
  let language := toLowerCase (str_or (language body) "") in
  let files := default [] (files body) in
  let stdin := str_or (stdin body) "" in
  let compile_timeout := number_or (compile_timeout body) 5000 in
  let run_timeout := number_or (run_timeout body) 3000 in
  jobId ← new_uuid P;
  let jobDir := join EXEC_DIR jobId in
  mkdirSync P jobDir;;
  try_catch_finally
    (job_try language jobDir files stdin compile_timeout run_timeout)
    job_catch
    (job_finally P jobDir).

End Handlers.
End Legacy.

(** ** Vocabulary of the properties *)

(** What a trace says was executed, removed and created. *)
Definition exec_calls (tr : list Event) : list ExecRequest :=
  omap (fun ev => match ev with EvExec r => Some r | _ => None end) tr.

Definition rm_calls (tr : list Event) : list string :=
  omap (fun ev => match ev with EvRm p => Some p | _ => None end) tr.

Definition responses (tr : list Event) : list Response :=
  omap (fun ev => match ev with EvRespond r => Some r | _ => None end) tr.

Definition mkdir_calls (tr : list Event) : list string :=
  omap (fun ev => match ev with EvMkdir p => Some p | _ => None end) tr.

(** The compile command of a language, for those that have one. *)
Definition compile_command (language : string) : option string :=
  if language === "cpp" then
    Some "g++ -std=c++17 -O2 -pipe -static -s *.cpp -o main"
  else if language === "java" then Some "javac *.java"
  else None.

(** The object the batch code writes where no command was run. *)
Definition synthesized : CmdResult :=
  {| stdout := ""; stderr := ""; code := 0; timeMs := None |}.

(** The internal name of a supported language. *)
Definition internal_name (language : string) : string :=
  let language := if language === "c++" then "cpp" else language in
  if (language === "node") || (language === "js") then "javascript"
  else language.

(** The top-level [run] of a response. *)
Definition legacy_run (rs : list CmdResult) : CmdResult :=
  match rs with
  | r :: _ => r
  | [] => synthesized
  end.

(** The run command of a language in the batch executor. *)
Definition run_command (language : string) : string :=
  if language === "cpp" then "./main"
  else if language === "java" then "java Main"
  else if language === "python" then "python3 main.py"
  else if (language === "javascript") || (language === "node") then
    "node main.js"
  else "".

(** The requests the batch executor hands to [exec] for the compile step. *)
Definition compile_requests (language jobDir : string) (compileTimeout : Z)
    : list ExecRequest :=
  match compile_command language with
  | Some cmd =>
      [{| req_cmd := cmd; req_cwd := jobDir; req_timeout := compileTimeout;
          req_maxBuffer := 10485760; req_stdin := [] |}]
  | None => []
  end.

(** The request for one run on one input. *)
Definition run_request (language jobDir : string) (runTimeout : Z)
    (input : string) : ExecRequest :=
  {| req_cmd := run_command language; req_cwd := jobDir;
     req_timeout := runTimeout; req_maxBuffer := 10485760;
     req_stdin := if truthy input then [input] else [] |}.

(** The paths and contents of the files of a job, in the order of
    submission. *)
Definition written (language jobDir : string) (fl : list SourceFile)
    : list (string * string) :=
  omap (fun f =>
          match file_name language f with
          | Some n => Some (join jobDir n, str_or (content f) "")
          | None => None
          end) fl.

(** The request with the language replaced by its internal name. *)
Definition canonical (rq : RequestBody) : RequestBody :=
  {| language := Some (internal_name (toLowerCase (str_or (language rq) "")));
     files := files rq; stdin := stdin rq; inputs := inputs rq;
     compile_timeout := compile_timeout rq; run_timeout := run_timeout rq |}.

(** A result of a single-run handler and a result of the batch executor
    describe the same job: the same final state, and either the same
    exception, or the same [compile] (none and the synthesized one, for a
    language that is not compiled) and a [run] that is the first of
    [results], if there is one. *)
Definition same_job (compiled : bool)
    (single : Outcome Legacy.HandlerResult * St)
    (batch : Outcome BatchResult * St) : Prop :=
  single.2 = batch.2
  /\ match single.1, batch.1 with
     | Ok h, Ok b =>
         Legacy.run h = head (results b)
         /\ Legacy.compile h = (if compiled then Some (compile b) else None)
         /\ (compiled = false -> compile b = synthesized)
     | Throw e, Throw e' => e = e'
     | Crash, Crash => True
     | _, _ => False
     end.



(** The entry file as the specification words it: the last of the names, as
    they are written, that ends in the extension of the language, and the
    default name when there is none. *)
Fixpoint last_match (ext : string) (names : list string) : option string :=
  match names with
  | [] => None
  | n :: rest =>
      match last_match ext rest with
      | Some m => Some m
      | None => if endsWith n ext then Some n else None
      end
  end.

Definition entry_file (dflt ext : string) (fl : list SourceFile) : string :=
  default dflt (last_match ext (map (fun f => str_or (name f) dflt) fl)).

Section Runs.

Variable P : Platform.

(** The result of one invocation started in state [s], when [exec] calls
    back, and the state the invocation leaves in any case. *)
Definition run_value (cmd cwd : string) (timeoutMs : Z) (inputStr : string)
    (s : St) : option CmdResult :=
  let out := exec P (request cmd cwd timeoutMs inputStr) (world s) in
  match out.1 with
  | Calls cb => Some (on_exit (clock out.2 - clock (world s)) cb)
  | Throws _ | Breaks => None
  end.

Definition run_state (cmd cwd : string) (timeoutMs : Z) (s : St)
    (inputStr : string) : St :=
  set_world (exec P (request cmd cwd timeoutMs inputStr) (world s)).2
            (emit (EvExec (request cmd cwd timeoutMs inputStr)) s).

(** The results of a batch started in state [s], one invocation after the
    other, up to the first one for which [exec] does not call back. *)
Fixpoint batch_values (runCmd jobDir : string) (runTimeout : Z)
    (ins : list string) (s : St) : list CmdResult :=
  match ins with
  | [] => []
  | input :: rest =>
      match run_value runCmd jobDir runTimeout input s with
      | Some r =>
          r :: batch_values runCmd jobDir runTimeout rest
                 (run_state runCmd jobDir runTimeout s input)
      | None => []
      end
  end.

(** [exec] calls back for every input of a batch started in state [s]. *)
Definition all_call_back (runCmd jobDir : string) (runTimeout : Z)
    (ins : list string) (s : St) : Prop :=
  forall (i : nat) input,
    ins !! i = Some input ->
    is_Some (run_value runCmd jobDir runTimeout input
               (fold_left (run_state runCmd jobDir runTimeout) (take i ins) s)).

End Runs.

(** ** A small platform to run the code on

    Compilers accept everything except the source [int x = ;]; [./main] and
    the interpreters copy their stdin to stdout; an interpreter given a file
    that does not exist exits with 2; the script [while(true){}] runs until
    its deadline.  Every command takes 7 ms.  A negative timeout is refused
    by [exec].  [rm_fails] makes [fs.rmSync] throw. *)

Module Demo.

Definition exited (c : Z) (out err : string) : ExecCallback :=
  {| cb_error :=
       if (c =? 0)%Z then None
       else Some {| killed := false; signal := None; err_code := CodeNumber c |};
     cb_stdout := out;
     cb_stderr := err |}.

Definition deadline (out : string) : ExecCallback :=
  {| cb_error :=
       Some {| killed := true; signal := Some "SIGTERM"; err_code := CodeNone |};
     cb_stdout := out;
     cb_stderr := "" |}.

Fixpoint strip (p s : string) : option string :=
  match p, s with
  | EmptyString, _ => Some s
  | String a p', String b s' => if Ascii.eqb a b then strip p' s' else None
  | String _ _, EmptyString => None
  end.

Definition interpret (req : ExecRequest) (w : World) (script : string)
    : ExecCallback :=
  match store w !! (req_cwd req +:+ "/" +:+ script) with
  | None => exited 2 "" ("can't open file " +:+ script)
  | Some src =>
      if src === "while(true){}" then deadline "partial output"
      else exited 0 (String.concat "" (req_stdin req)) ""
  end.

Definition syntax_error (s : option string) : bool :=
  match s with
  | Some src => src === "int x = ;"
  | None => false
  end.

Definition run (req : ExecRequest) (w : World) : ExecCallback :=
  let cmd := req_cmd req in
  if String.prefix "g++ " cmd then
    if syntax_error (store w !! (req_cwd req +:+ "/main.cpp"))
    then exited 1 "" "error: expected primary-expression"
    else exited 0 "" ""
  else if String.prefix "javac " cmd then exited 0 "" ""
  else
    match strip "python3 " cmd, strip "node " cmd with
    | Some script, _ => interpret req w script
    | None, Some script => interpret req w script
    | None, None => exited 0 (String.concat "" (req_stdin req)) ""
    end.

Definition tick (w : World) : World :=
  {| clock := clock w + 7; dirs := dirs w; store := store w; seed := seed w |}.

Definition out_of_range (t : Z) : Exn :=
  {| exn_name := "RangeError";
     message := "The value of " +:+ dquote +:+ "timeout" +:+ dquote
                +:+ " is out of range. It must be an unsigned integer."
                +:+ " Received " +:+ pretty t |}.

Definition platform (rm_fails : bool) : Platform :=
  {| exec := fun req w =>
       if (req_timeout req <? 0)%Z then (Throws (out_of_range (req_timeout req)), w)
       else (Calls (run req w), tick w);
     uuidv4 := fun w =>
       ("job-" +:+ (if (seed w =? 0)%N then "a" else "b"),
        {| clock := clock w; dirs := dirs w; store := store w;
           seed := seed w + 1 |});
     fs_throws := fun c _ =>
       match c with
       | Rm _ =>
           if rm_fails
           then Some {| exn_name := "Error"; message := "EBUSY: resource busy" |}
           else None
       | _ => None
       end |}.

Definition boot : St :=
  {| world := {| clock := 1000; dirs := {[ EXEC_DIR ]}; store := ∅; seed := 0 |};
     trace := [] |}.

Definition post (language : string) (files : list SourceFile)
    (inputs : list string) : RequestBody :=
  {| language := Some language; files := Some files; stdin := None;
     inputs := Some inputs; compile_timeout := None; run_timeout := None |}.

Definition source (name : option string) (content : string) : SourceFile :=
  {| name := name; content := Some content |}.

(** The workspace of the first job, and a state in which it exists and holds
    the given files. *)
Definition job : string := "/tmp/executions/job-a".

Definition echo_py : list SourceFile := [source None "print(input())"].

Definition broken_cpp : list SourceFile := [source None "int x = ;"].

Definition workspace (fl : list (string * string)) : St :=
  {| world := {| clock := 1000; dirs := {[ EXEC_DIR; job ]};
                 store := list_to_map fl; seed := 1 |};
     trace := [] |}.

(** A workspace whose script never ends. *)
Definition spinning : St := workspace [(job +:+ "/main.js", "while(true){}")].

Definition deadline_error : ExecError :=
  {| killed := true; signal := Some "SIGTERM"; err_code := CodeNone |}.

Definition exit_2 : ExecError :=
  {| killed := false; signal := None; err_code := CodeNumber 2 |}.

(** The same platform with a file system on which the calls chosen by
    [fails] throw. *)
Definition faulty (fails : FsCall -> bool) : Platform :=
  {| exec := exec (platform false);
     uuidv4 := uuidv4 (platform false);
     fs_throws := fun c _ =>
       if fails c
       then Some {| exn_name := "Error"; message := "EIO: i/o error" |}
       else None |}.

(** The same platform with a compiler that does not end before its
    deadline. *)
Definition slow_compiler : Platform :=
  {| exec := fun req w =>
       (Calls (if String.prefix "g++ " (req_cmd req) then deadline ""
               else run req w),
        tick w);
     uuidv4 := uuidv4 (platform false);
     fs_throws := fs_throws (platform false) |}.

(** The platform of Node with the children of [N]. *)
Definition on_node (N : NodeRuntime) : Platform :=
  {| exec := node_exec N;
     uuidv4 := uuidv4 (platform false);
     fs_throws := fs_throws (platform false) |}.

(** Children that print a line and loop for ever. *)
Definition looping : NodeRuntime :=
  {| spawn := fun _ w =>
       {| runs_for := None; ending := Exits 0; overflows_at := None;
          captured := fun _ => ("partial output", "");
          survives_SIGTERM := false; takes_stdin := true;
          leaves := fun _ => w; lag := 2 |};
     range_error := out_of_range |}.



(** Children that have closed their stdin: a write to it fails, which ends
    the server. *)
Definition fragile : NodeRuntime :=
  {| spawn := fun _ w =>
       {| runs_for := Some 7; ending := Exits 0; overflows_at := None;
          captured := fun _ => ("", "");
          survives_SIGTERM := false; takes_stdin := false;
          leaves := fun _ => w; lag := 2 |};
     range_error := out_of_range |}.

Definition main_cpp : list SourceFile := [source None "int main(){return 0;}"].

(** Two files under one name and one under another. *)
Definition overwritten : list SourceFile :=
  [source (Some "a.py") "print(1)"; source None "print(2)";
   source (Some "./a.py") "print(3)"].

Definition solution_py : list SourceFile :=
  [source (Some "solution.py") "print(input())"].

Definition app_js : list SourceFile :=
  [source None "console.log(1)"; source (Some "app.js") "console.log(2)";
   source (Some "notes.txt") "to do"].

Definition is_write (c : FsCall) : bool :=
  match c with WriteFile _ _ => true | _ => false end.

Definition is_mkdir (c : FsCall) : bool :=
  match c with Mkdir _ => true | _ => false end.

End Demo.


(** * Properties *)

Section RunCommand.

Variable P : Platform.

Lemma bind_unfold {A B : Type} (m : M A) (f : A -> M B) (s : St) :
  (m ≫= f) s =
  match m s with
  | (Ok a, s') => f a s'
  | (Throw e, s') => (Throw e, s')
  | (Crash, s') => (Crash, s')
  end.
Proof. reflexivity. Qed.

(** [runCommand] calls [exec] once; it resolves with the result of the
    callback when [exec] calls back, rejects when [exec] throws, and never
    resolves otherwise. *)
Lemma runCommand_unfold cmd cwd timeoutMs inputStr s :
  runCommand P cmd cwd timeoutMs inputStr s =
  (match (exec P (request cmd cwd timeoutMs inputStr) (world s)).1 with
   | Calls cb =>
       Ok (on_exit
             (clock (exec P (request cmd cwd timeoutMs inputStr) (world s)).2
              - clock (world s)) cb)
   | Throws e => Throw e
   | Breaks => Crash
   end,
   run_state P cmd cwd timeoutMs s inputStr).
Proof.
  unfold runCommand, run_state.
  destruct (exec P (request cmd cwd timeoutMs inputStr) (world s))
    as [[cb|e|] w]; reflexivity.
Qed.

Lemma runCommand_calls cmd cwd timeoutMs inputStr s r :
  run_value P cmd cwd timeoutMs inputStr s = Some r ->
  runCommand P cmd cwd timeoutMs inputStr s
  = (Ok r, run_state P cmd cwd timeoutMs s inputStr).
Proof.
  rewrite runCommand_unfold. unfold run_value. cbn zeta.
  destruct (exec P _ _).1; [|discriminate..]. intros [= <-]. reflexivity.
Qed.

Lemma runCommand_ok cmd cwd timeoutMs inputStr s r s' :
  runCommand P cmd cwd timeoutMs inputStr s = (Ok r, s') ->
  run_value P cmd cwd timeoutMs inputStr s = Some r
  /\ s' = run_state P cmd cwd timeoutMs s inputStr.
Proof.
  rewrite runCommand_unfold. unfold run_value. cbn zeta.
  destruct (exec P _ _).1; [|discriminate..]. intros [= <- <-].
  split; reflexivity.
Qed.

Lemma run_state_trace cmd cwd timeoutMs inputStr s :
  trace (run_state P cmd cwd timeoutMs s inputStr) =
  trace s ++ [EvExec (request cmd cwd timeoutMs inputStr)].
Proof. reflexivity. Qed.

(** The child reads exactly [inputStr]: one chunk, or none when it is
    empty. *)
Lemma request_stdin cmd cwd timeoutMs inputStr :
  String.concat "" (req_stdin (request cmd cwd timeoutMs inputStr)) = inputStr.
Proof. destruct inputStr; reflexivity. Qed.

Lemma killed_by_SIGTERM_spec (e : ExecError) :
  killed_by_SIGTERM (Some e) = true <->
  killed e = true /\ signal e = Some "SIGTERM".
Proof.
  unfold killed_by_SIGTERM. destruct (killed e); simpl.
  - destruct (signal e) as [sg|].
    + rewrite String.eqb_eq. split.
      * intros ->. auto.
      * intros [_ H]. congruence.
    + split; [discriminate | intros [_ H]; discriminate].
  - split; [discriminate | intros [H _]; discriminate].
Qed.





(** C9. Whatever the child had written to stdout (and stderr) before it was
    killed at the deadline is dropped: the sentinel carries an empty
    stdout. *)
Theorem sentinel_drops_output cmd cwd timeoutMs inputStr s e out err w :
  exec P (request cmd cwd timeoutMs inputStr) (world s)
    = (Calls {| cb_error := Some e; cb_stdout := out; cb_stderr := err |}, w) ->
  killed_by_SIGTERM (Some e) = true ->
  exists r s',
    runCommand P cmd cwd timeoutMs inputStr s = (Ok r, s') /\ stdout r = "".
Proof.
  intros Hexec Hk. do 2 eexists.
  rewrite runCommand_unfold, Hexec. unfold on_exit.
  cbn [cb_error cb_stdout cb_stderr fst snd]. rewrite Hk.
  split; reflexivity.
Qed.

(** C7. When [exec] reports an error that is not the kill at the deadline,
    the code is the child's exit code if [error.code] is a number and 0
    otherwise, stdout and stderr are passed on, and [timeMs] is the
    difference of the two readings of the clock, at the spawn and in the
    callback. *)
Theorem failure_code_or_zero cmd cwd timeoutMs inputStr s e out err w :
  exec P (request cmd cwd timeoutMs inputStr) (world s)
    = (Calls {| cb_error := Some e; cb_stdout := out; cb_stderr := err |}, w) ->
  killed_by_SIGTERM (Some e) = false ->
  exists s',
    runCommand P cmd cwd timeoutMs inputStr s =
      (Ok {| stdout := out; stderr := err;
             code := match err_code e with
                     | CodeNumber n => n
                     | CodeString _ | CodeNone => 0
                     end;
             timeMs := Some (clock w - clock (world s)) |}, s')
    /\ world s' = w.
Proof.
  intros Hexec Hk. eexists. rewrite runCommand_unfold, Hexec.
  unfold on_exit, run_state. rewrite Hexec.
  cbn [cb_error cb_stdout cb_stderr fst snd]. rewrite Hk.
  split; reflexivity.
Qed.

End RunCommand.

Section Batch.

Variable P : Platform.

Lemma fs_call_trace c ev eff s :
  trace (fs_call P c ev eff s).2 = trace s ++ [ev].
Proof.
  unfold fs_call. destruct (fs_throws P c (world s)); reflexivity.
Qed.

(** A call of the file system returns or throws. *)
Lemma fs_call_no_crash c ev eff s : (fs_call P c ev eff s).1 <> Crash.
Proof.
  unfold fs_call. destruct (fs_throws P c (world s)); discriminate.
Qed.

Lemma omap_snoc {A B : Type} (f : A -> option B) (l : list A) (x : A) :
  f x = None -> omap f (l ++ [x]) = omap f l.
Proof.
  intros H. rewrite omap_app. simpl. rewrite H. apply app_nil_r.
Qed.

(** Writing the files executes nothing, removes nothing and creates no
    directory: a view of the trace that does not see [EvWriteFile] is
    unchanged. *)
Lemma write_files_silent {A : Type} (f : Event -> option A) language jobDir :
  (forall p c, f (EvWriteFile p c) = None) ->
  forall fl s,
    omap f (trace (write_files P language jobDir fl s).2) = omap f (trace s).
Proof.
  intros Hf fl. induction fl as [|x rest IH]; intros s; [reflexivity|].
  cbn [write_files]. rewrite bind_unfold.
  unfold path_join. destruct (file_name language x) as [n|]; [|reflexivity].
  unfold mret, M_ret. rewrite bind_unfold.
  pose proof (fs_call_trace (WriteFile (join jobDir n) (str_or (content x) ""))
                (EvWriteFile (join jobDir n) (str_or (content x) ""))
                (put_file (join jobDir n) (str_or (content x) "")) s) as Ht.
  unfold writeFileSync.
  destruct (fs_call P _ _ _ s) as [[[]|e|] s1]; simpl in Ht |- *.
  - rewrite IH, Ht. apply omap_snoc, Hf.
  - rewrite Ht. apply omap_snoc, Hf.
  - rewrite Ht. apply omap_snoc, Hf.
Qed.

(** And it returns or throws. *)
Lemma write_files_no_crash language jobDir fl :
  forall s, (write_files P language jobDir fl s).1 <> Crash.
Proof.
  induction fl as [|x rest IH]; intros s; [discriminate|].
  cbn [write_files]. rewrite bind_unfold.
  unfold path_join. destruct (file_name language x) as [n|]; [|discriminate].
  unfold mret, M_ret. rewrite bind_unfold.
  pose proof (fs_call_no_crash
                (WriteFile (join jobDir n) (str_or (content x) ""))
                (EvWriteFile (join jobDir n) (str_or (content x) ""))
                (put_file (join jobDir n) (str_or (content x) "")) s) as Hn.
  unfold writeFileSync.
  destruct (fs_call P _ _ _ s) as [[[]|e|] s1]; cbn [fst] in *;
    [apply IH | discriminate | contradiction].
Qed.

(** A language without a compile command keeps the synthesized
    [compileRes], and nothing is executed for it. *)
Lemma compile_step_none language jobDir compileTimeout s :
  compile_command language = None ->
  compile_step P language jobDir compileTimeout s
    = (Ok (synthesized, run_command language), s).
Proof.
  unfold compile_command, compile_step, run_command.
  destruct (language === "cpp"); [discriminate|].
  destruct (language === "java"); [discriminate|]. intros _.
  destruct (language === "python"); [reflexivity|].
  destruct ((language === "javascript") || (language === "node"));
    reflexivity.
Qed.

(** A language with a compile command runs it once, with the compile
    timeout and nothing on stdin, and the step ends as that command does. *)
Lemma compile_step_some language jobDir compileTimeout s cmd :
  compile_command language = Some cmd ->
  compile_step P language jobDir compileTimeout s
    = (match (runCommand P cmd jobDir compileTimeout "" s).1 with
       | Ok c => Ok (c, run_command language)
       | Throw e => Throw e
       | Crash => Crash
       end,
       run_state P cmd jobDir compileTimeout s "").
Proof.
  unfold compile_command, compile_step, run_command.
  destruct (language === "cpp").
  - intros [= <-]. rewrite bind_unfold, runCommand_unfold. cbn [fst].
    destruct (exec P _ _).1; reflexivity.
  - destruct (language === "java"); [|discriminate].
    intros [= <-]. rewrite bind_unfold, runCommand_unfold. cbn [fst].
    destruct (exec P _ _).1; reflexivity.
Qed.

Lemma compile_step_calls language jobDir compileTimeout s cmd c :
  compile_command language = Some cmd ->
  run_value P cmd jobDir compileTimeout "" s = Some c ->
  compile_step P language jobDir compileTimeout s
    = (Ok (c, run_command language),
       run_state P cmd jobDir compileTimeout s "").
Proof.
  intros Hcmd Hv. rewrite (compile_step_some _ _ _ _ _ Hcmd).
  rewrite (runCommand_calls P _ _ _ _ _ _ Hv). reflexivity.
Qed.

(** What the compile step returns, when it returns. *)
Lemma compile_step_ok language jobDir compileTimeout s c runCmd s' :
  compile_step P language jobDir compileTimeout s = (Ok (c, runCmd), s') ->
  runCmd = run_command language
  /\ match compile_command language with
     | Some cmd =>
         run_value P cmd jobDir compileTimeout "" s = Some c
         /\ s' = run_state P cmd jobDir compileTimeout s ""
     | None => c = synthesized /\ s' = s
     end.
Proof.
  destruct (compile_command language) as [cmd|] eqn:E.
  - rewrite (compile_step_some _ _ _ _ _ E).
    destruct (runCommand P cmd jobDir compileTimeout "" s) as [[c0|e|] s0] eqn:Hr;
      cbn [fst]; [|discriminate..].
    intros [= <- <- <-]. apply runCommand_ok in Hr as [Hv _]. auto.
  - rewrite (compile_step_none _ _ _ _ E). intros [= <- <- <-]. auto.
Qed.

Lemma compile_step_trace language jobDir compileTimeout s :
  trace (compile_step P language jobDir compileTimeout s).2
  = trace s ++ map EvExec (compile_requests language jobDir compileTimeout).
Proof.
  unfold compile_requests.
  destruct (compile_command language) as [cmd|] eqn:E.
  - rewrite (compile_step_some _ _ _ _ _ E). reflexivity.
  - rewrite (compile_step_none _ _ _ _ E). cbn [snd map].
    rewrite app_nil_r. reflexivity.
Qed.

Lemma all_call_back_cons runCmd jobDir rT input rest s :
  all_call_back P runCmd jobDir rT (input :: rest) s ->
  is_Some (run_value P runCmd jobDir rT input s)
  /\ all_call_back P runCmd jobDir rT rest (run_state P runCmd jobDir rT s input).
Proof.
  intros H. split.
  - exact (H 0%nat input eq_refl).
  - intros i x Hi. exact (H (S i) x Hi).
Qed.

(** When [exec] calls back for every input, the loop returns the results in
    order. *)
Lemma run_batch_unfold runCmd jobDir runTimeout ins :
  forall acc s,
    all_call_back P runCmd jobDir runTimeout ins s ->
    run_batch P runCmd jobDir runTimeout ins acc s =
    (Ok (acc ++ batch_values P runCmd jobDir runTimeout ins s),
     fold_left (run_state P runCmd jobDir runTimeout) ins s).
Proof.
  induction ins as [|input rest IH]; intros acc s Hall.
  - simpl. rewrite app_nil_r. reflexivity.
  - apply all_call_back_cons in Hall as [[r Hr] Hrest].
    cbn [run_batch batch_values fold_left].
    rewrite bind_unfold, (runCommand_calls P _ _ _ _ _ _ Hr), Hr, IH by exact Hrest.
    rewrite <- app_assoc. reflexivity.
Qed.

(** And when the loop returns, [exec] has called back for every input. *)
Lemma run_batch_ok runCmd jobDir runTimeout ins :
  forall acc s rs s',
    run_batch P runCmd jobDir runTimeout ins acc s = (Ok rs, s') ->
    all_call_back P runCmd jobDir runTimeout ins s.
Proof.
  induction ins as [|input rest IH]; intros acc s rs s' H.
  - intros i x Hi. discriminate.
  - cbn [run_batch] in H. rewrite bind_unfold in H.
    destruct (runCommand P runCmd jobDir runTimeout input s)
      as [[r|e|] s0] eqn:Hr; [|discriminate..].
    apply runCommand_ok in Hr as [Hv ->].
    specialize (IH _ _ _ _ H).
    intros [|i] x Hi.
    + injection Hi as <-. cbn. rewrite Hv. eauto.
    + exact (IH i x Hi).
Qed.

(** However the loop ends, what it has done is to start the run command for
    the first inputs, in order. *)
Lemma run_batch_trace runCmd jobDir runTimeout ins :
  forall acc s,
    exists k : nat,
      trace (run_batch P runCmd jobDir runTimeout ins acc s).2 =
      trace s ++ map (fun input => EvExec (request runCmd jobDir runTimeout input))
                     (take k ins).
Proof.
  induction ins as [|input rest IH]; intros acc s.
  - exists 0%nat. simpl. rewrite app_nil_r. reflexivity.
  - cbn [run_batch]. rewrite bind_unfold, runCommand_unfold.
    destruct (exec P _ _).1 as [cb|e|].
    + destruct (IH (acc ++ [on_exit
                              (clock (exec P (request runCmd jobDir runTimeout input)
                                        (world s)).2 - clock (world s)) cb])
                   (run_state P runCmd jobDir runTimeout s input)) as [k Hk].
      exists (S k). rewrite Hk, run_state_trace, <- app_assoc. reflexivity.
    + exists 1%nat. cbn [snd]. rewrite run_state_trace. destruct rest; reflexivity.
    + exists 1%nat. cbn [snd]. rewrite run_state_trace. destruct rest; reflexivity.
Qed.

Lemma batch_values_length runCmd jobDir runTimeout ins :
  forall s,
    all_call_back P runCmd jobDir runTimeout ins s ->
    length (batch_values P runCmd jobDir runTimeout ins s) = length ins.
Proof.
  induction ins as [|input rest IH]; intros s Hall; [reflexivity|].
  apply all_call_back_cons in Hall as [[r Hr] Hrest].
  cbn [batch_values]. rewrite Hr. cbn [length]. rewrite IH by exact Hrest.
  reflexivity.
Qed.

Lemma batch_values_lookup runCmd jobDir runTimeout ins :
  forall s (i : nat) input,
    all_call_back P runCmd jobDir runTimeout ins s ->
    ins !! i = Some input ->
    batch_values P runCmd jobDir runTimeout ins s !! i =
    run_value P runCmd jobDir runTimeout input
      (fold_left (run_state P runCmd jobDir runTimeout) (take i ins) s).
Proof.
  induction ins as [|x rest IH]; intros s i input Hall H; [discriminate|].
  apply all_call_back_cons in Hall as [[r Hr] Hrest].
  cbn [batch_values]. rewrite Hr.
  destruct i as [|i]; simpl in *.
  - injection H as <-. symmetry. exact Hr.
  - apply IH; assumption.
Qed.

Lemma batch_trace runCmd jobDir runTimeout ins :
  forall s,
    trace (fold_left (run_state P runCmd jobDir runTimeout) ins s) =
    trace s ++ map (fun input => EvExec (request runCmd jobDir runTimeout input))
                   ins.
Proof.
  induction ins as [|x rest IH]; intros s; simpl.
  - rewrite app_nil_r. reflexivity.
  - rewrite IH, run_state_trace, <- app_assoc. reflexivity.
Qed.

Lemma handleBatchExecution_unfold language jobDir fl ins cT rT s :
  handleBatchExecution P language jobDir fl ins cT rT s =
  match write_files P language jobDir fl s with
  | (Ok _, s1) =>
      match compile_step P language jobDir cT s1 with
      | (Ok (compileRes, runCmd), s2) =>
          if negb (code compileRes =? 0)%Z then
            (Ok {| compile := compileRes; results := [] |}, s2)
          else
            match run_batch P runCmd jobDir rT ins [] s2 with
            | (Ok rs, s3) => (Ok {| compile := compileRes; results := rs |}, s3)
            | (Throw e, s3) => (Throw e, s3)
            | (Crash, s3) => (Crash, s3)
            end
      | (Throw e, s2) => (Throw e, s2)
      | (Crash, s2) => (Crash, s2)
      end
  | (Throw e, s1) => (Throw e, s1)
  | (Crash, s1) => (Crash, s1)
  end.
Proof.
  unfold handleBatchExecution. rewrite bind_unfold.
  destruct (write_files P language jobDir fl s) as [[[]|e|] s1];
    [|reflexivity..].
  rewrite bind_unfold.
  destruct (compile_step P language jobDir cT s1)
    as [[[compileRes runCmd]|e|] s2]; [|reflexivity..].
  destruct (negb (code compileRes =? 0)%Z); [reflexivity|].
  rewrite bind_unfold.
  destruct (run_batch P runCmd jobDir rT ins [] s2) as [[rs|e|] s3];
    reflexivity.
Qed.

(** C1. When the files were written, the compile step ended with code 0
    (which includes the languages for which nothing is compiled) and [exec]
    calls back for each run (it does not refuse the run, the write to the
    child's stdin does not end the server, and the child ends), the batch
    executor returns one
    result per input; the result at index [i] is that of the invocation of
    the run command that was started, with [inputs[i]] on its stdin, in the
    state left by the invocations for the inputs before it; and the commands
    were executed after the compile step in the order of the inputs. *)
Theorem batch_results_follow_inputs
    language jobDir fl ins cT rT s s1 s2 compileRes runCmd :
  write_files P language jobDir fl s = (Ok tt, s1) ->
  compile_step P language jobDir cT s1 = (Ok (compileRes, runCmd), s2) ->
  code compileRes = 0 ->
  all_call_back P runCmd jobDir rT ins s2 ->
  exists rs s3,
    handleBatchExecution P language jobDir fl ins cT rT s
      = (Ok {| compile := compileRes; results := rs |}, s3)
    /\ length rs = length ins
    /\ (forall (i : nat) input,
          ins !! i = Some input ->
          let before := fold_left (run_state P runCmd jobDir rT) (take i ins) s2 in
          exists r,
            rs !! i = Some r
            /\ runCommand P runCmd jobDir rT input before
                 = (Ok r,
                    fold_left (run_state P runCmd jobDir rT) (take (S i) ins) s2)
            /\ String.concat "" (req_stdin (request runCmd jobDir rT input))
                 = input)
    /\ trace s3 =
         trace s2
         ++ map (fun input => EvExec (request runCmd jobDir rT input)) ins.
Proof.
  intros Hw Hc Hcode Hall.
  exists (batch_values P runCmd jobDir rT ins s2),
         (fold_left (run_state P runCmd jobDir rT) ins s2).
  split; [|split; [|split]].
  - rewrite handleBatchExecution_unfold, Hw, Hc, Hcode.
    rewrite (run_batch_unfold _ _ _ _ [] _ Hall). reflexivity.
  - apply batch_values_length, Hall.
  - intros i input Hi before.
    destruct (Hall i input Hi) as [r Hr]. fold before in Hr.
    exists r. split; [|split].
    + rewrite (batch_values_lookup _ _ _ _ _ _ _ Hall Hi). exact Hr.
    + rewrite (runCommand_calls P _ _ _ _ _ _ Hr). f_equal.
      rewrite (take_S_r _ _ _ Hi), fold_left_app. reflexivity.
    + apply request_stdin.
  - apply batch_trace.
Qed.

(** C3. In a language with a compile command, when that command ends with a
    code other than 0 the batch executor returns its result together with an
    empty [results], and the compile command is the only command that was
    executed: no run command is started for any input. *)
Theorem compile_failure_short_circuits language jobDir fl ins cT rT s s1 cmd c :
  write_files P language jobDir fl s = (Ok tt, s1) ->
  compile_command language = Some cmd ->
  run_value P cmd jobDir cT "" s1 = Some c ->
  code c <> 0 ->
  exists s2,
    handleBatchExecution P language jobDir fl ins cT rT s
      = (Ok {| compile := c; results := [] |}, s2)
    /\ exec_calls (trace s2)
       = exec_calls (trace s) ++ [request cmd jobDir cT ""].
Proof.
  intros Hw Hcmd Hv Hcode.
  exists (run_state P cmd jobDir cT s1 "").
  split.
  - rewrite handleBatchExecution_unfold, Hw.
    rewrite (compile_step_calls _ _ _ _ _ _ Hcmd Hv).
    destruct (Z.eqb_spec (code c) 0); [contradiction|reflexivity].
  - rewrite run_state_trace. unfold exec_calls at 1.
    rewrite omap_app. simpl. f_equal.
    pose proof (write_files_silent
                  (fun ev => match ev with EvExec r => Some r | _ => None end)
                  language jobDir (fun _ _ => eq_refl) fl s) as H.
    rewrite Hw in H. exact H.
Qed.

End Batch.

Section Endpoint.

Variable P : Platform.

Lemma batch_inputs_nonempty rq : batch_inputs rq <> [].
Proof.
  unfold batch_inputs. destruct (inputs rq) as [[|i r]|]; discriminate.
Qed.

(** The block of [try] stops for good when the batch executor does.
    Otherwise the blocks of [try] and [catch] end with a response, in one of
    three ways. *)
Lemma job_try_catch_cases language jobDir fl ins ct rt s1 :
  (includes SUPPORTED language = true
   /\ exists sA,
        handleBatchExecution P (internal_name language) jobDir fl ins
          ct rt s1 = (Crash, sA)
        /\ try_catch (job_try P language jobDir fl ins ct rt) job_catch s1
           = (Crash, sA))
  \/ exists resp s2,
    try_catch (job_try P language jobDir fl ins ct rt) job_catch s1
      = (Ok resp, s2)
    /\ ((includes SUPPORTED language = false
         /\ resp = {| status := 400;
                      body := ErrorBody ("Unsupported language: " +:+ language) |}
         /\ s2 = emit (EvRespond resp) s1)
        \/ (includes SUPPORTED language = true
            /\ exists e sA,
                 handleBatchExecution P (internal_name language) jobDir fl ins
                   ct rt s1 = (Throw e, sA)
                 /\ resp = {| status := 500;
                              body := ErrorBody
                                        (if truthy (message e) then message e
                                         else String_of_exn e) |}
                 /\ s2 = emit (EvRespond resp) sA)
        \/ (includes SUPPORTED language = true
            /\ exists result sA,
                 handleBatchExecution P (internal_name language) jobDir fl ins
                   ct rt s1 = (Ok result, sA)
                 /\ resp = {| status := 200;
                              body := JobBody (internal_name language)
                                        (Some (compile result))
                                        (legacy_run (results result))
                                        (results result) |}
                 /\ s2 = emit (EvRespond resp) sA)).
Proof.
  unfold try_catch, job_try.
  destruct (includes SUPPORTED language) eqn:Hsup; cbn [negb].
  - fold (internal_name language). rewrite bind_unfold.
    destruct (handleBatchExecution P (internal_name language) jobDir fl ins
                ct rt s1) as [[result|e|] sA] eqn:Hh.
    + right. do 2 eexists. split; [reflexivity|].
      right; right. split; [reflexivity|]. exists result, sA.
      split; [reflexivity|]. split; reflexivity.
    + right. do 2 eexists. split; [reflexivity|].
      right; left. split; [reflexivity|]. exists e, sA.
      split; [reflexivity|]. split; reflexivity.
    + left. split; [reflexivity|]. exists sA. split; reflexivity.
  - right. do 2 eexists. split; [reflexivity|]. left. auto.
Qed.

Lemma job_finally_unfold jobDir s :
  job_finally P jobDir s = (Ok tt, (rmSync P jobDir s).2).
Proof.
  unfold job_finally, try_catch, rmSync, fs_call.
  destruct (fs_throws P (Rm jobDir) (world s)); reflexivity.
Qed.

Lemma rmSync_trace jobDir s :
  trace (rmSync P jobDir s).2 = trace s ++ [EvRm jobDir].
Proof. apply fs_call_trace. Qed.

(** The handler from the allocation of the workspace on: the cleanup runs
    after the blocks of [try] and [catch], unless they have stopped for
    good. *)
Lemma piston_execute_unfold rq s :
  piston_execute P rq s =
  match mkdirSync P (join EXEC_DIR (uuidv4 P (world s)).1)
          (set_world (uuidv4 P (world s)).2 s) with
  | (Ok _, s1) =>
      match try_catch
              (job_try P (toLowerCase (str_or (language rq) ""))
                 (join EXEC_DIR (uuidv4 P (world s)).1)
                 (default [] (files rq)) (batch_inputs rq)
                 (number_or (compile_timeout rq) 10000)
                 (number_or (run_timeout rq) 3000))
              job_catch s1 with
      | (Crash, s2) => (Crash, s2)
      | (r, s2) => (r, (rmSync P (join EXEC_DIR (uuidv4 P (world s)).1) s2).2)
      end
  | (Throw e, s1) => (Throw e, s1)
  | (Crash, s1) => (Crash, s1)
  end.
Proof.
  unfold piston_execute. rewrite bind_unfold. unfold new_uuid.
  destruct (uuidv4 P (world s)) as [jobId w]. cbn [fst snd].
  rewrite bind_unfold.
  destruct (mkdirSync P (join EXEC_DIR jobId) (set_world w s)) as [[[]|e|] s1];
    [|reflexivity..].
  unfold try_catch_finally.
  destruct (try_catch _ _ s1) as [[resp|e|] s2];
    try rewrite job_finally_unfold; reflexivity.
Qed.

Lemma mkdirSync_ok jobDir s s1 :
  mkdirSync P jobDir s = (Ok tt, s1) ->
  trace s1 = trace s ++ [EvMkdir jobDir].
Proof.
  intros H.
  pose proof (fs_call_trace P (Mkdir jobDir) (EvMkdir jobDir) (add_dir jobDir) s)
    as Ht.
  unfold mkdirSync in H. rewrite H in Ht. exact Ht.
Qed.

Lemma omap_execs {A : Type} (f : Event -> option A) (g : string -> ExecRequest)
    (ins : list string) :
  (forall r, f (EvExec r) = None) -> omap f (map (fun i => EvExec (g i)) ins) = [].
Proof.
  intros Hf. induction ins as [|x rest IH]; simpl; [reflexivity|].
  rewrite Hf. exact IH.
Qed.

Lemma compile_step_silent {A : Type} (f : Event -> option A) language jobDir cT s :
  (forall r, f (EvExec r) = None) ->
  omap f (trace (compile_step P language jobDir cT s).2) = omap f (trace s).
Proof.
  intros Hf. rewrite compile_step_trace, omap_app.
  unfold compile_requests. destruct (compile_command language); simpl.
  - rewrite Hf. apply app_nil_r.
  - apply app_nil_r.
Qed.

(** The batch executor writes files and executes commands, and does nothing
    else, however it ends. *)
Lemma handleBatchExecution_silent {A : Type} (f : Event -> option A)
    language jobDir fl ins cT rT s :
  (forall p c, f (EvWriteFile p c) = None) ->
  (forall r, f (EvExec r) = None) ->
  omap f (trace (handleBatchExecution P language jobDir fl ins cT rT s).2)
    = omap f (trace s).
Proof.
  intros Hw He. rewrite handleBatchExecution_unfold.
  pose proof (write_files_silent P f language jobDir Hw fl s) as H1.
  destruct (write_files P language jobDir fl s) as [[[]|e|] s1];
    [|exact H1..].
  pose proof (compile_step_silent f language jobDir cT s1 He) as H2.
  destruct (compile_step P language jobDir cT s1)
    as [[[compileRes runCmd]|e|] s2]; cbn [snd] in *; [|congruence..].
  destruct (negb (code compileRes =? 0)%Z); cbn [snd]; [congruence|].
  destruct (run_batch_trace P runCmd jobDir rT ins [] s2) as [k Hk].
  assert (omap f (trace (run_batch P runCmd jobDir rT ins [] s2).2)
          = omap f (trace s)) as Hrun.
  { rewrite Hk, omap_app, omap_execs, app_nil_r by exact He. congruence. }
  destruct (run_batch P runCmd jobDir rT ins [] s2) as [[rs|e|] s3];
    exact Hrun.
Qed.

(** Neither do the blocks of [try] and [catch], apart from responding. *)
Lemma job_try_catch_silent {A : Type} (f : Event -> option A)
    language jobDir fl ins ct rt s1 :
  (forall p c, f (EvWriteFile p c) = None) ->
  (forall r, f (EvExec r) = None) ->
  (forall r, f (EvRespond r) = None) ->
  omap f (trace (try_catch (job_try P language jobDir fl ins ct rt)
                   job_catch s1).2)
    = omap f (trace s1).
Proof.
  intros Hw He Hr.
  pose proof (handleBatchExecution_silent f (internal_name language) jobDir
                fl ins ct rt s1 Hw He) as Hb.
  destruct (job_try_catch_cases language jobDir fl ins ct rt s1)
    as [(_ & sA & Hh & ->) | (resp & s2 & -> & Hcase)]; cbn [snd].
  - rewrite Hh in Hb. exact Hb.
  - destruct Hcase as [(_ & _ & ->) | [(_ & e & sA & Hh & _ & ->)
                                      | (_ & result & sA & Hh & _ & ->)]].
    + apply omap_snoc, Hr.
    + rewrite Hh in Hb. cbn [emit trace]. rewrite omap_snoc by apply Hr.
      exact Hb.
    + rewrite Hh in Hb. cbn [emit trace]. rewrite omap_snoc by apply Hr.
      exact Hb.
Qed.

Lemma under_refl p : under p p = true.
Proof. unfold under. rewrite String.eqb_refl. reflexivity. Qed.

(** A tree that was removed is gone, with everything below it. *)
Lemma remove_tree_gone p w :
(p ∉ dirs (remove_tree p w))
  /\ forall q, under p q = true -> store (remove_tree p w) !! q = None.
Proof.
  split.
  - cbn [remove_tree dirs]. intros H. apply elem_of_filter in H as [H _].
    rewrite under_refl in H. exact H.
  - intros q Hq. cbn [remove_tree store].
    apply map_lookup_filter_None. right. intros x _ H.
    cbn [fst] in H. rewrite Hq in H. exact H.
Qed.

(** C2, as the code has it. A request whose language is not one of the seven
    accepted tags, and for which the workspace directory could be created,
    is answered with status 400 (for a tag of ASCII characters the message
    is "Unsupported language: " and the lowered tag); no file is written and
    no command is executed for it. The workspace directory is created before
    the language is looked at; its removal is called once, after the
    response, and the directory is gone when that call does not throw.
    These two calls are the only file-system activity. *)
Theorem unsupported_language_rejected rq s s1 :
  let tag := str_or (language rq) "" in
  let jobDir := join EXEC_DIR (uuidv4 P (world s)).1 in
  includes SUPPORTED (toLowerCase tag) = false ->
  mkdirSync P jobDir (set_world (uuidv4 P (world s)).2 s) = (Ok tt, s1) ->
  exists msg s3,
    piston_execute P rq s
      = (Ok {| status := 400; body := ErrorBody msg |}, s3)
    /\ (ascii_only tag = true ->
        msg = "Unsupported language: " +:+ toLowerCase tag)
    /\ trace s3
       = trace s ++ [EvMkdir jobDir;
                     EvRespond {| status := 400; body := ErrorBody msg |};
                     EvRm jobDir]
    /\ (fs_throws P (Rm jobDir) (world s1) = None ->
        (jobDir ∉ dirs (world s3))
        /\ forall q, under jobDir q = true -> store (world s3) !! q = None)
    /\ (fs_throws P (Rm jobDir) (world s1) <> None -> world s3 = world s1).
Proof.
  intros tag jobDir Hsup Hmk.
  rewrite piston_execute_unfold. fold jobDir tag. rewrite Hmk.
  destruct (job_try_catch_cases (toLowerCase tag) jobDir (default [] (files rq))
              (batch_inputs rq) (number_or (compile_timeout rq) 10000)
              (number_or (run_timeout rq) 3000) s1)
    as [(Hs & _) | (resp' & s2 & -> & Hcase)]; [congruence|].
  destruct Hcase as [(_ & -> & ->) | [(Hs & _) | (Hs & _)]]; try congruence.
  do 2 eexists. split; [reflexivity|]. split; [reflexivity|].
  split; [|split].
  - rewrite rmSync_trace. cbn [emit trace].
    rewrite (mkdirSync_ok _ _ _ Hmk), <- !app_assoc. reflexivity.
  - intros Hrm. unfold rmSync, fs_call. cbn [emit world]. rewrite Hrm.
    cbn [snd set_world world]. apply remove_tree_gone.
  - intros Hrm. unfold rmSync, fs_call. cbn [emit world].
    destruct (fs_throws P (Rm jobDir) (world s1)); [reflexivity|congruence].
Qed.

(** C8, as the code has it. Once the workspace directory was created, and
    unless a command has stopped the handler for good (its child never ends,
    or a write to the stdin of its child ends the server process), the
    handler ends with a response, the one the blocks of [try] and [catch]
    produced, whether or not the removal throws; [fs.rmSync] is called on
    the workspace exactly once, right after the response; and when that call
    does not throw the directory and everything below it are gone. When it
    throws, the exception is swallowed and the world stays as it was. *)
Theorem workspace_removed_once rq s s1 :
  let jobDir := join EXEC_DIR (uuidv4 P (world s)).1 in
  mkdirSync P jobDir (set_world (uuidv4 P (world s)).2 s) = (Ok tt, s1) ->
  (try_catch
     (job_try P (toLowerCase (str_or (language rq) "")) jobDir
        (default [] (files rq)) (batch_inputs rq)
        (number_or (compile_timeout rq) 10000)
        (number_or (run_timeout rq) 3000))
     job_catch s1).1 <> Crash ->
  exists resp s2 s3,
    try_catch
      (job_try P (toLowerCase (str_or (language rq) "")) jobDir
         (default [] (files rq)) (batch_inputs rq)
         (number_or (compile_timeout rq) 10000)
         (number_or (run_timeout rq) 3000))
      job_catch s1 = (Ok resp, s2)
    /\ piston_execute P rq s = (Ok resp, s3)
    /\ rm_calls (trace s3) = rm_calls (trace s) ++ [jobDir]
    /\ trace s3 = trace s2 ++ [EvRm jobDir]
    /\ (exists sA, trace s2 = trace sA ++ [EvRespond resp])
    /\ (fs_throws P (Rm jobDir) (world s2) = None ->
        (jobDir ∉ dirs (world s3))
        /\ forall q, under jobDir q = true -> store (world s3) !! q = None)
    /\ (fs_throws P (Rm jobDir) (world s2) <> None -> world s3 = world s2).
Proof.
  intros jobDir Hmk Halive.
  pose proof (job_try_catch_silent
                (fun ev => match ev with EvRm p => Some p | _ => None end)
                (toLowerCase (str_or (language rq) "")) jobDir
                (default [] (files rq)) (batch_inputs rq)
                (number_or (compile_timeout rq) 10000)
                (number_or (run_timeout rq) 3000) s1
                (fun _ _ => eq_refl) (fun _ => eq_refl) (fun _ => eq_refl))
    as Hsil.
  destruct (job_try_catch_cases (toLowerCase (str_or (language rq) "")) jobDir
              (default [] (files rq)) (batch_inputs rq)
              (number_or (compile_timeout rq) 10000)
              (number_or (run_timeout rq) 3000) s1)
    as [(_ & sA & _ & Hc) | (resp & s2 & Htc & Hcase)].
  { rewrite Hc in Halive. contradiction. }
  rewrite Htc in Hsil. cbn [snd] in Hsil.
  exists resp, s2, (rmSync P jobDir s2).2.
  split; [exact Htc|]. split; [|split; [|split; [|split; [|split]]]].
  - rewrite piston_execute_unfold. fold jobDir. rewrite Hmk, Htc.
    reflexivity.
  - rewrite rmSync_trace. unfold rm_calls. rewrite omap_app. cbn [omap].
    f_equal. rewrite Hsil, (mkdirSync_ok _ _ _ Hmk).
    apply omap_snoc. reflexivity.
  - apply rmSync_trace.
  - destruct Hcase as [(_ & _ & ->) | [(_ & e & sA & _ & _ & ->)
                                      | (_ & result & sA & _ & _ & ->)]];
      eexists; reflexivity.
  - intros Hrm. unfold rmSync, fs_call. rewrite Hrm. cbn [snd set_world world].
    apply remove_tree_gone.
  - intros Hrm. unfold rmSync, fs_call.
    destruct (fs_throws P (Rm jobDir) (world s2)); [reflexivity|congruence].
Qed.

(** What the batch executor returns, when it returns. *)
Lemma handleBatchExecution_result language jobDir fl ins cT rT s result s' :
  handleBatchExecution P language jobDir fl ins cT rT s = (Ok result, s') ->
  (compile_command language = None -> compile result = synthesized)
  /\ (forall cmd, compile_command language = Some cmd ->
        exists s1, run_value P cmd jobDir cT "" s1 = Some (compile result))
  /\ (code (compile result) <> 0 -> results result = [])
  /\ (code (compile result) = 0 -> length (results result) = length ins).
Proof.
  rewrite handleBatchExecution_unfold.
  destruct (write_files P language jobDir fl s) as [[[]|e|] s1];
    [|discriminate..].
  destruct (compile_step P language jobDir cT s1) as [[[c runCmd]|e|] s2] eqn:Hc;
    [|discriminate..].
  apply compile_step_ok in Hc as [-> Hc].
  assert ((compile_command language = None -> c = synthesized)
          /\ (forall cmd, compile_command language = Some cmd ->
                exists s1, run_value P cmd jobDir cT "" s1 = Some c))
    as [Hn Hs].
  { destruct (compile_command language) as [cmd|].
    - destruct Hc as [Hv _]. split; [discriminate|]. intros ? [= <-]. eauto.
    - destruct Hc as [-> _]. split; [reflexivity|discriminate]. }
  destruct (Z.eqb_spec (code c) 0) as [Hz|Hz]; cbn [negb].
  - destruct (run_batch P (run_command language) jobDir rT ins [] s2)
      as [[rs|e|] s3] eqn:Hr; [|discriminate..].
    intros [= <- <-]. cbn [compile results].
    split; [exact Hn|]. split; [exact Hs|]. split; [congruence|]. intros _.
    pose proof (run_batch_ok _ _ _ _ _ _ _ _ _ Hr) as Hall.
    rewrite (run_batch_unfold _ _ _ _ _ _ _ Hall) in Hr. injection Hr as <- _.
    apply batch_values_length, Hall.
  - intros [= <- <-]. cbn [compile results].
    split; [exact Hn|]. split; [exact Hs|]. split; [reflexivity|]. congruence.
Qed.

(** A response with a job in it comes from a batch that returned: its
    fields are those of the result. *)
Lemma job_response rq s resp s' l c r rs :
  piston_execute P rq s = (Ok resp, s') ->
  body resp = JobBody l c r rs ->
  exists result jobDir s1 sA,
    handleBatchExecution P l jobDir (default [] (files rq)) (batch_inputs rq)
      (number_or (compile_timeout rq) 10000)
      (number_or (run_timeout rq) 3000) s1 = (Ok result, sA)
    /\ status resp = 200
    /\ l = internal_name (toLowerCase (str_or (language rq) ""))
    /\ c = Some (compile result)
    /\ r = legacy_run (results result)
    /\ results result = rs.
Proof.
  rewrite piston_execute_unfold.
  destruct (mkdirSync P _ _) as [[[]|e|] s1]; [|discriminate..].
  destruct (job_try_catch_cases (toLowerCase (str_or (language rq) ""))
              (join EXEC_DIR (uuidv4 P (world s)).1)
              (default [] (files rq)) (batch_inputs rq)
              (number_or (compile_timeout rq) 10000)
              (number_or (run_timeout rq) 3000) s1)
    as [(_ & sA & _ & ->) | (resp' & s2 & -> & Hcase)]; [discriminate|].
  intros [= -> _] Hbody.
  destruct Hcase as [(_ & -> & _) | [(_ & e & sA & _ & -> & _)
                                    | (_ & result & sA & Hh & -> & _)]].
  - discriminate.
  - discriminate.
  - cbn [body] in Hbody. injection Hbody as <- <- <- <-.
    exists result, (join EXEC_DIR (uuidv4 P (world s)).1), s1, sA.
    repeat split; auto.
Qed.


(** C10. A response whose [results] is empty has the synthesized object
    [{ code: 0, stdout: "", stderr: "" }] as its top-level [run]; its
    [compile] field then holds a code other than 0, so the code 0 of that
    [run] stands for no run at all. *)
Theorem empty_results_synthesized_run rq s resp s' l c r rs :
  piston_execute P rq s = (Ok resp, s') ->
  body resp = JobBody l c r rs ->
  rs = [] ->
  r = {| stdout := ""; stderr := ""; code := 0; timeMs := None |}
  /\ exists cr, c = Some cr /\ code cr <> 0.
Proof.
  intros Hx Hbody Hrs.
  destruct (job_response rq s resp s' l c r rs Hx Hbody)
    as (result & jobDir & s1 & sA & Hh & _ & _ & -> & -> & Hres).
  rewrite Hrs in Hres. rewrite Hres. split; [reflexivity|].
  exists (compile result). split; [reflexivity|]. intros Hz.
  destruct (handleBatchExecution_result _ _ _ _ _ _ _ _ _ Hh)
    as (_ & _ & _ & Hlen).
  specialize (Hlen Hz). rewrite Hres in Hlen.
  pose proof (batch_inputs_nonempty rq) as Hne.
  destruct (batch_inputs rq); [congruence|discriminate].
Qed.

End Endpoint.

(** * The entry file of an interpreted language *)

Section EntryFile.

Variable P : Platform.

Lemma str_or_self (x : string) : str_or (Some x) "" = x.
Proof. destruct x; reflexivity. Qed.

(** The loop of the single-run handlers leaves in [mainFile] the last name
    that ends in the extension, or what [mainFile] was before the loop, and
    it executes nothing. *)
Lemma save_scripts_last_match dflt ext jobDir fl :
  forall mainFile s m s',
    Legacy.save_scripts P dflt ext jobDir fl mainFile s = (Ok m, s') ->
    m = default mainFile
          (last_match ext (map (fun f => str_or (name f) dflt) fl))
    /\ exec_calls (trace s') = exec_calls (trace s).
Proof.
  induction fl as [|f rest IH]; intros mainFile s m s' H.
  - injection H as <- <-. split; reflexivity.
  - cbn [Legacy.save_scripts] in H. rewrite bind_unfold in H.
    pose proof (fs_call_trace P
                  (WriteFile (join jobDir (str_or (name f) dflt))
                     (str_or (content f) ""))
                  (EvWriteFile (join jobDir (str_or (name f) dflt))
                     (str_or (content f) ""))
                  (put_file (join jobDir (str_or (name f) dflt))
                     (str_or (content f) "")) s) as Ht.
    unfold writeFileSync in H.
    destruct (fs_call P _ _ _ s) as [[[]|e|] s1]; [|discriminate..].
    cbn [snd] in Ht. apply IH in H as [-> Hx]. split.
    + cbn [map last_match].
      destruct (last_match ext (map (fun f => str_or (name f) dflt) rest));
        [reflexivity|].
      destruct (endsWith (str_or (name f) dflt) ext); reflexivity.
    + rewrite Hx, Ht. unfold exec_calls. apply omap_snoc. reflexivity.
Qed.

(** X17. [handlePython] runs the interpreter on the entry file of the
    specification: the last submitted name that ends in [.py], a file without
    a name counting as [main.py], and [main.py] when there is none. *)
Lemma handlePython_entry_file jobDir fl input rT s r s' :
  Legacy.handlePython P jobDir fl input rT s = (Ok r, s') ->
  exec_calls (trace s')
  = exec_calls (trace s)
    ++ [request ("python3 " +:+ entry_file "main.py" ".py" fl) jobDir rT input].
Proof.
  unfold Legacy.handlePython. rewrite bind_unfold.
  destruct (Legacy.save_scripts P "main.py" ".py" jobDir fl "main.py" s)
    as [[m|e|] s1] eqn:E; [|discriminate..].
  apply save_scripts_last_match in E as [-> Hx].
  rewrite bind_unfold, runCommand_unfold, str_or_self.
  destruct (exec P _ _).1; [|discriminate..]. intros [= _ <-].
  rewrite run_state_trace. unfold exec_calls in *.
  rewrite omap_app, Hx. reflexivity.
Qed.

(** X18. And [handleJS] runs [node] on the last submitted name that ends in
    [.js], or on [main.js]. *)
Lemma handleJS_entry_file jobDir fl input rT s r s' :
  Legacy.handleJS P jobDir fl input rT s = (Ok r, s') ->
  exec_calls (trace s')
  = exec_calls (trace s)
    ++ [request ("node " +:+ entry_file "main.js" ".js" fl) jobDir rT input].
Proof.
  unfold Legacy.handleJS. rewrite bind_unfold.
  destruct (Legacy.save_scripts P "main.js" ".js" jobDir fl "main.js" s)
    as [[m|e|] s1] eqn:E; [|discriminate..].
  apply save_scripts_last_match in E as [-> Hx].
  rewrite bind_unfold, runCommand_unfold, str_or_self.
  destruct (exec P _ _).1; [|discriminate..]. intros [= _ <-].
  rewrite run_state_trace. unfold exec_calls in *.
  rewrite omap_app, Hx. reflexivity.
Qed.

(** The batch executor does not look at the names: the run command of an
    interpreted language is a constant. *)
Lemma batch_run_command_fixed language jobDir cT s :
  compile_command language = None ->
  exists runCmd,
    compile_step P language jobDir cT s = (Ok (synthesized, runCmd), s)
    /\ (language = "python" -> runCmd = "python3 main.py")
    /\ (language = "javascript" -> runCmd = "node main.js").
Proof.
  unfold compile_command, compile_step.
  destruct (language === "cpp") eqn:E1; [discriminate|].
  destruct (language === "java") eqn:E2; [discriminate|]. intros _.
  destruct (language === "python") eqn:E3.
  - eexists. split; [reflexivity|]. split; [reflexivity|].
    intros ->. discriminate.
  - destruct ((language === "javascript") || (language === "node")) eqn:E4.
    + eexists. split; [reflexivity|]. split; [|reflexivity].
      intros ->. discriminate.
    + eexists. split; [reflexivity|].
      split; intros ->; discriminate.
Qed.

End EntryFile.

(** C5. A python job whose only file is [solution.py]: the name ends in
    [.py], so it is the entry file of the specification, and [handlePython]
    runs [python3 solution.py]. The batch executor runs [python3 main.py],
    a file that was not written, and the job ends with the interpreter's
    exit code 2. *)
Theorem batch_ignores_submitted_entry_file :
  let fl := [Demo.source (Some "solution.py") "print(input())"] in
  entry_file "main.py" ".py" fl = "solution.py"
  /\ exec_calls
       (trace (Legacy.handlePython (Demo.platform false) Demo.job fl "hi" 3000
                 (Demo.workspace [])).2)
     = [request "python3 solution.py" Demo.job 3000 "hi"]
  /\ exec_calls
       (trace (handleBatchExecution (Demo.platform false) "python" Demo.job fl
                 ["hi"] 10000 3000 (Demo.workspace [])).2)
     = [request "python3 main.py" Demo.job 3000 "hi"]
  /\ (piston_execute (Demo.platform false) (Demo.post "python" fl ["hi"])
        Demo.boot).1
     = Ok {| status := 200;
             body := JobBody "python" (Some synthesized)
                       {| stdout := ""; stderr := "can't open file main.py";
                          code := 2; timeMs := Some 7 |}
                       [{| stdout := ""; stderr := "can't open file main.py";
                           code := 2; timeMs := Some 7 |}] |}.
Proof. cbn zeta. repeat split; vm_compute; reflexivity. Qed.

(** * The properties on the small platform *)

(** C2 as the specification states it fails: the request for the language
    [ruby] is rejected with status 400, and its workspace directory was
    created (and removed again). *)
Lemma unsupported_language_creates_workspace :
  let out := piston_execute (Demo.platform false) (Demo.post "ruby" [] ["x"])
               Demo.boot in
  includes SUPPORTED "ruby" = false
  /\ out.1 = Ok {| status := 400;
                   body := ErrorBody "Unsupported language: ruby" |}
  /\ mkdir_calls (trace out.2) = [Demo.job]
  /\ mkdir_calls (trace out.2) <> [].
Proof. cbn zeta. repeat split; vm_compute; (reflexivity || discriminate). Qed.


(** C8 as the specification states it fails: when [fs.rmSync] throws, the
    response is the same, the removal was attempted once, and the workspace
    directory is still there after the response. *)
Lemma failed_removal_leaves_workspace :
  let rq := Demo.post "python" Demo.echo_py ["hi"] in
  let out := piston_execute (Demo.platform true) rq Demo.boot in
  out.1 = (piston_execute (Demo.platform false) rq Demo.boot).1
  /\ (exists resp, out.1 = Ok resp /\ status resp = 200)
  /\ rm_calls (trace out.2) = [Demo.job]
  /\ Demo.job ∈ dirs (world out.2).
Proof.
  cbn zeta. split; [vm_compute; reflexivity|].
  split; [eexists; split; vm_compute; reflexivity|].
  split; [vm_compute; reflexivity|].
  apply (bool_decide_unpack _). vm_compute. exact I.
Qed.



(** Its partial output is not in the result. *)
Lemma sentinel_drops_output_witness :
  exists r s',
    runCommand (Demo.platform false) "node main.js" Demo.job 500 ""
      Demo.spinning = (Ok r, s')
    /\ stdout r = "".
Proof.
  apply (sentinel_drops_output (Demo.platform false) "node main.js" Demo.job
           500 "" Demo.spinning Demo.deadline_error "partial output" ""
           (Demo.tick (world Demo.spinning)));
    vm_compute; reflexivity.
Defined.

(** The interpreter that does not find its file exits with 2. *)
Lemma failure_code_or_zero_witness :
  exists s',
    runCommand (Demo.platform false) "python3 main.py" Demo.job 3000 "hi"
      (Demo.workspace []) =
      (Ok {| stdout := ""; stderr := "can't open file main.py";
             code := match err_code Demo.exit_2 with
                     | CodeNumber n => n
                     | CodeString _ | CodeNone => 0
                     end;
             timeMs := Some (clock (Demo.tick (world (Demo.workspace [])))
                             - clock (world (Demo.workspace []))) |}, s')
    /\ world s' = Demo.tick (world (Demo.workspace [])).
Proof.
  apply (failure_code_or_zero (Demo.platform false) "python3 main.py" Demo.job
           3000 "hi" (Demo.workspace []) Demo.exit_2 ""
           "can't open file main.py" (Demo.tick (world (Demo.workspace []))));
    vm_compute; reflexivity.
Defined.

(** Two inputs for a python script give two results, in the order of the
    inputs. *)
Lemma batch_results_follow_inputs_witness :
  let P := Demo.platform false in
  let s1 := (write_files P "python" Demo.job Demo.echo_py (Demo.workspace [])).2 in
  let ins := ["hi"; "bye"] in
  exists rs s3,
    handleBatchExecution P "python" Demo.job Demo.echo_py ins 10000 3000
      (Demo.workspace [])
      = (Ok {| compile := synthesized; results := rs |}, s3)
    /\ length rs = length ins
    /\ (forall (i : nat) input,
          ins !! i = Some input ->
          let before :=
            fold_left (run_state P "python3 main.py" Demo.job 3000)
              (take i ins) s1 in
          exists r,
            rs !! i = Some r
            /\ runCommand P "python3 main.py" Demo.job 3000 input before
                 = (Ok r,
                    fold_left (run_state P "python3 main.py" Demo.job 3000)
                      (take (S i) ins) s1)
            /\ String.concat ""
                 (req_stdin (request "python3 main.py" Demo.job 3000 input))
                 = input)
    /\ trace s3 =
         trace s1
         ++ map (fun input => EvExec (request "python3 main.py" Demo.job 3000 input))
                ins.
Proof.
  intros P s1 ins.
  apply (batch_results_follow_inputs P "python" Demo.job Demo.echo_py ins
           10000 3000 (Demo.workspace []) s1 s1 synthesized "python3 main.py").
  - vm_compute; reflexivity.
  - vm_compute; reflexivity.
  - reflexivity.
  - intros [|[|i]] input Hi; [| |discriminate Hi];
      eexists; vm_compute; reflexivity.
Defined.

(** A C++ source with a syntax error: the compiler's result and no run. *)
Lemma compile_failure_short_circuits_witness :
  let P := Demo.platform false in
  let cmd := "g++ -std=c++17 -O2 -pipe -static -s *.cpp -o main" in
  let c := {| stdout := ""; stderr := "error: expected primary-expression";
              code := 1; timeMs := Some 7 |} in
  exists s2,
    handleBatchExecution P "cpp" Demo.job Demo.broken_cpp ["x"; "y"] 10000 3000
      (Demo.workspace [])
      = (Ok {| compile := c; results := [] |}, s2)
    /\ exec_calls (trace s2)
       = exec_calls (trace (Demo.workspace []))
         ++ [request cmd Demo.job 10000 ""].
Proof.
  intros P cmd c.
  apply (compile_failure_short_circuits P "cpp" Demo.job Demo.broken_cpp
           ["x"; "y"] 10000 3000 (Demo.workspace [])
           (write_files P "cpp" Demo.job Demo.broken_cpp (Demo.workspace [])).2
           cmd c).
  - vm_compute; reflexivity.
  - reflexivity.
  - vm_compute; reflexivity.
  - vm_compute. discriminate.
Defined.

(** The request for [ruby]: a 400, a directory created and removed, and
    nothing else. *)
Lemma unsupported_language_rejected_witness :
  let P := Demo.platform false in
  let rq := Demo.post "RUBY" Demo.echo_py ["x"] in
  let s1 := (mkdirSync P Demo.job
               (set_world (uuidv4 P (world Demo.boot)).2 Demo.boot)).2 in
  exists msg s3,
    piston_execute P rq Demo.boot
      = (Ok {| status := 400; body := ErrorBody msg |}, s3)
    /\ (ascii_only "RUBY" = true ->
        msg = "Unsupported language: " +:+ toLowerCase "RUBY")
    /\ trace s3
       = trace Demo.boot
         ++ [EvMkdir Demo.job;
             EvRespond {| status := 400; body := ErrorBody msg |};
             EvRm Demo.job]
    /\ (fs_throws P (Rm Demo.job) (world s1) = None ->
        (Demo.job ∉ dirs (world s3))
        /\ forall q, under Demo.job q = true -> store (world s3) !! q = None)
    /\ (fs_throws P (Rm Demo.job) (world s1) <> None -> world s3 = world s1).
Proof.
  intros P rq s1.
  apply (unsupported_language_rejected P rq Demo.boot s1);
    vm_compute; reflexivity.
Defined.

(** A python job on a platform whose removals succeed: one removal, and the
    workspace is gone. *)
Lemma workspace_removed_once_witness :
  let P := Demo.platform false in
  let rq := Demo.post "python" Demo.echo_py ["hi"] in
  let s1 := (mkdirSync P Demo.job
               (set_world (uuidv4 P (world Demo.boot)).2 Demo.boot)).2 in
  exists resp s2 s3,
    try_catch
      (job_try P "python" Demo.job Demo.echo_py ["hi"] 10000 3000)
      job_catch s1 = (Ok resp, s2)
    /\ piston_execute P rq Demo.boot = (Ok resp, s3)
    /\ rm_calls (trace s3) = rm_calls (trace Demo.boot) ++ [Demo.job]
    /\ trace s3 = trace s2 ++ [EvRm Demo.job]
    /\ (exists sA, trace s2 = trace sA ++ [EvRespond resp])
    /\ (fs_throws P (Rm Demo.job) (world s2) = None ->
        (Demo.job ∉ dirs (world s3))
        /\ forall q, under Demo.job q = true -> store (world s3) !! q = None)
    /\ (fs_throws P (Rm Demo.job) (world s2) <> None -> world s3 = world s2).
Proof.
  intros P rq s1.
  apply (workspace_removed_once P rq Demo.boot s1).
  - vm_compute; reflexivity.
  - vm_compute. discriminate.
Defined.


(** The C++ job with the syntax error: no results, and a [run] that was never
    run. *)
Lemma empty_results_synthesized_run_witness :
  let P := Demo.platform false in
  let rq := Demo.post "cpp" Demo.broken_cpp ["x"] in
  let c := {| stdout := ""; stderr := "error: expected primary-expression";
              code := 1; timeMs := Some 7 |} in
  synthesized = {| stdout := ""; stderr := ""; code := 0; timeMs := None |}
  /\ exists cr, Some c = Some cr /\ code cr <> 0.
Proof.
  intros P rq c.
  apply (empty_results_synthesized_run P rq Demo.boot
           {| status := 200; body := JobBody "cpp" (Some c) synthesized [] |}
           (piston_execute P rq Demo.boot).2 "cpp" (Some c) synthesized []);
    vm_compute; reflexivity.
Defined.

(** * Further properties of the process runner and of the batch executor *)

(** X1. The code of a result is 0 in exactly two situations that are not a
    kill at the deadline: [exec] reported no error, or it reported an error
    whose [code] is not a number (or is the number 0). So a code 0 also
    stands for a child that ended without an exit code. *)
Theorem code_zero_iff (t : Z) (cb : ExecCallback) :
  code (on_exit t cb) = 0 <->
  killed_by_SIGTERM (cb_error cb) = false
  /\ match cb_error cb with
     | None => True
     | Some e => match err_code e with
                 | CodeNumber n => n = 0
                 | CodeString _ | CodeNone => True
                 end
     end.
Proof.
  unfold on_exit. destruct (killed_by_SIGTERM (cb_error cb)); cbn [code].
  - split; [discriminate | intros [H _]; discriminate].
  - destruct (cb_error cb) as [e|]; [|tauto].
    destruct (err_code e); tauto.
Qed.

(** X2. The code 124 is reported for a kill at the deadline, and otherwise
    only for a child that itself exited with 124. *)
Theorem code_124_iff (t : Z) (cb : ExecCallback) :
  code (on_exit t cb) = 124 <->
  killed_by_SIGTERM (cb_error cb) = true
  \/ exists e, cb_error cb = Some e /\ err_code e = CodeNumber 124.
Proof.
  unfold on_exit. destruct (killed_by_SIGTERM (cb_error cb)); cbn [code].
  - split; auto.
  - destruct (cb_error cb) as [e|].
    + destruct (err_code e) as [n| |] eqn:E; split.
      * intros ->. right. eauto.
      * intros [H | (e' & [= <-] & H)]; [discriminate|]. congruence.
      * discriminate.
      * intros [H | (e' & [= <-] & H)]; [discriminate|]. congruence.
      * discriminate.
      * intros [H | (e' & [= <-] & H)]; [discriminate|]. congruence.
    + split; [discriminate|]. intros [H | (e' & H & _)]; discriminate.
Qed.

Section BatchMore.

Variable P : Platform.

Lemma writeFileSync_ok p c s s1 :
  writeFileSync P p c s = (Ok tt, s1) ->
  s1 = set_world (put_file p c (world s)) (emit (EvWriteFile p c) s).
Proof.
  unfold writeFileSync, fs_call.
  destruct (fs_throws P (WriteFile p c) (world s)); [discriminate|].
  intros [= <-]. reflexivity.
Qed.

Lemma written_cons language jobDir f rest n :
  file_name language f = Some n ->
  written language jobDir (f :: rest)
  = (join jobDir n, str_or (content f) "") :: written language jobDir rest.
Proof. intros H. unfold written. simpl. rewrite H. reflexivity. Qed.

(** X3. When the files of a job were all written, they were written in the
    order of submission under their resolved names, each at the normalized
    path that [path.join] makes of the workspace and the name; a path holds
    the content of the last file submitted under it (and what it held before
    otherwise), and no directory was touched. *)
Theorem write_files_store language jobDir fl :
  forall s s1,
    write_files P language jobDir fl s = (Ok tt, s1) ->
    store (world s1)
      = list_to_map (reverse (written language jobDir fl)) ∪ store (world s)
    /\ trace s1
       = trace s ++ map (fun pc => EvWriteFile pc.1 pc.2)
                        (written language jobDir fl)
    /\ dirs (world s1) = dirs (world s)
    /\ clock (world s1) = clock (world s).
Proof.
  induction fl as [|f rest IH]; intros s s1 H.
  - injection H as <-.
    change (written language jobDir []) with (@nil (string * string)).
    cbn [map]. rewrite app_nil_r. split; [|auto].
    change (list_to_map (reverse [])) with (∅ : gmap string string).
    rewrite (left_id_L ∅ (∪)). reflexivity.
  - cbn [write_files] in H. rewrite bind_unfold in H. unfold path_join in H.
    destruct (file_name language f) as [n|] eqn:Hn; [|discriminate].
    rewrite (written_cons _ _ _ _ _ Hn).
    unfold mret, M_ret in H. rewrite bind_unfold in H.
    destruct (writeFileSync P (join jobDir n) (str_or (content f) "") s)
      as [[[]|e|] s0] eqn:Hw; [|discriminate..].
    apply writeFileSync_ok in Hw. subst s0.
    apply IH in H as (Hst & Htr & Hd & Hc).
    cbn [set_world emit world trace put_file store dirs clock] in *.
    split; [|split; [|split]]; try assumption.
    + rewrite Hst, reverse_cons, list_to_map_app.
      cbn [list_to_map foldr]. cbn [fst snd uncurry curry].
      rewrite <- (assoc_L (∪)), insert_union_singleton_l. reflexivity.
    + rewrite Htr, <- app_assoc. reflexivity.
Qed.

Lemma exec_calls_map (g : string -> ExecRequest) (ins : list string) :
  exec_calls (map (fun i => EvExec (g i)) ins) = map g ins.
Proof.
  induction ins as [|x r IH]; [reflexivity|].
  simpl. f_equal. exact IH.
Qed.

(** X4. Compile once, run once per input: when the batch executor returns,
    the commands it executed are the compile command of the language, if it
    has one, followed, when the compile code is 0, by the run command of the
    language once for each input in order, and nothing else. *)
Theorem batch_commands language jobDir fl ins cT rT s result s' :
  handleBatchExecution P language jobDir fl ins cT rT s = (Ok result, s') ->
  exec_calls (trace s')
  = exec_calls (trace s)
    ++ compile_requests language jobDir cT
    ++ (if (code (compile result) =? 0)%Z
        then map (run_request language jobDir rT) ins
        else []).
Proof.
  rewrite handleBatchExecution_unfold.
  pose proof (write_files_silent P
                (fun ev => match ev with EvExec r => Some r | _ => None end)
                language jobDir (fun _ _ => eq_refl) fl s) as Hw.
  destruct (write_files P language jobDir fl s) as [[[]|e|] s1];
    [|discriminate..].
  cbn [snd] in Hw.
  fold (exec_calls (trace s1)) in Hw. fold (exec_calls (trace s)) in Hw.
  pose proof (compile_step_trace P language jobDir cT s1) as Hx.
  destruct (compile_step P language jobDir cT s1) as [[[c runCmd]|e|] s2] eqn:Hc;
    [|discriminate..].
  apply compile_step_ok in Hc as [-> _]. cbn [snd] in Hx.
  assert (exec_calls (trace s2)
          = exec_calls (trace s) ++ compile_requests language jobDir cT) as Hx2.
  { rewrite Hx. unfold exec_calls at 1. rewrite omap_app.
    fold (exec_calls (trace s1)). rewrite Hw. f_equal.
    generalize (compile_requests language jobDir cT).
    intros l. induction l as [|x l IH]; [reflexivity|].
    simpl. f_equal. exact IH. }
  destruct (code c =? 0)%Z eqn:Hz; cbn [negb].
  - destruct (run_batch P (run_command language) jobDir rT ins [] s2)
      as [[rs|e|] s3] eqn:Hr; [|discriminate..].
    intros [= <- <-]. cbn [compile]. rewrite Hz.
    pose proof (run_batch_ok _ _ _ _ _ _ _ _ _ Hr) as Hall.
    rewrite (run_batch_unfold _ _ _ _ _ _ _ Hall) in Hr. injection Hr as _ <-.
    rewrite batch_trace. unfold exec_calls at 1. rewrite omap_app.
    fold (exec_calls (trace s2)). rewrite Hx2, <- app_assoc. do 2 f_equal.
    apply (exec_calls_map (request (run_command language) jobDir rT)).
  - intros [= <- <-]. cbn [compile]. rewrite Hz, Hx2, app_nil_r. reflexivity.
Qed.

(** X5. A compile command that is killed at its deadline ends the job like
    any failed compile: the result carries the timeout sentinel as [compile]
    and an empty [results]. *)
Theorem compile_timeout_short_circuits
    language jobDir fl ins cT rT s s1 cmd e out err w :
  write_files P language jobDir fl s = (Ok tt, s1) ->
  compile_command language = Some cmd ->
  exec P (request cmd jobDir cT "") (world s1)
    = (Calls {| cb_error := Some e; cb_stdout := out; cb_stderr := err |}, w) ->
  killed_by_SIGTERM (Some e) = true ->
  exists s2,
    handleBatchExecution P language jobDir fl ins cT rT s
      = (Ok {| compile := {| stdout := ""; stderr := "Time limit exceeded";
                             code := 124;
                             timeMs := Some (clock w - clock (world s1)) |};
               results := [] |}, s2).
Proof.
  intros Hw Hcmd Hexec Hk.
  assert (run_value P cmd jobDir cT "" s1
          = Some {| stdout := ""; stderr := "Time limit exceeded"; code := 124;
                    timeMs := Some (clock w - clock (world s1)) |}) as Hv.
  { unfold run_value. rewrite Hexec. unfold on_exit.
    cbn [cb_error cb_stdout cb_stderr fst snd]. rewrite Hk. reflexivity. }
  eexists. rewrite handleBatchExecution_unfold, Hw.
  rewrite (compile_step_calls P _ _ _ _ _ _ Hcmd Hv). reflexivity.
Qed.

End BatchMore.

(** * Further properties of the endpoint *)

Section EndpointMore.

Variable P : Platform.

Lemma supported_cases l :
  includes SUPPORTED l = true ->
  l = "cpp" \/ l = "c++" \/ l = "python" \/ l = "java" \/ l = "javascript"
  \/ l = "node" \/ l = "js".
Proof.
  unfold SUPPORTED, includes.
  repeat match goal with
         | |- context [String.eqb ?a l] =>
             destruct (String.eqb_spec a l); [subst; tauto|]
         end.
  discriminate.
Qed.







(** X7. When writing a file throws, the request is answered with status 500
    and the message of the exception, and no command was executed. *)
Theorem write_failure_gives_500 rq s s1 e sA :
  let language := toLowerCase (str_or (language rq) "") in
  let jobDir := join EXEC_DIR (uuidv4 P (world s)).1 in
  mkdirSync P jobDir (set_world (uuidv4 P (world s)).2 s) = (Ok tt, s1) ->
  includes SUPPORTED language = true ->
  write_files P (internal_name language) jobDir (default [] (files rq)) s1
    = (Throw e, sA) ->
  exists s',
    piston_execute P rq s
      = (Ok {| status := 500;
               body := ErrorBody (if truthy (message e) then message e
                                  else String_of_exn e) |}, s')
    /\ exec_calls (trace s') = exec_calls (trace s)
    /\ rm_calls (trace s') = rm_calls (trace s) ++ [jobDir].
Proof.
  intros language jobDir Hmk Hsup Hw.
  pose proof (write_files_silent P
                (fun ev => match ev with EvExec r => Some r | _ => None end)
                (internal_name language) jobDir (fun _ _ => eq_refl)
                (default [] (files rq)) s1) as Hx.
  pose proof (write_files_silent P
                (fun ev => match ev with EvRm p => Some p | _ => None end)
                (internal_name language) jobDir (fun _ _ => eq_refl)
                (default [] (files rq)) s1) as Hr.
  rewrite Hw in Hx, Hr. cbn [snd] in Hx, Hr.
  assert (handleBatchExecution P (internal_name language) jobDir
            (default [] (files rq)) (batch_inputs rq)
            (number_or (compile_timeout rq) 10000)
            (number_or (run_timeout rq) 3000) s1 = (Throw e, sA)) as Hh.
  { rewrite handleBatchExecution_unfold, Hw. reflexivity. }
  rewrite piston_execute_unfold. fold jobDir language. rewrite Hmk.
  destruct (job_try_catch_cases P language jobDir (default [] (files rq))
              (batch_inputs rq) (number_or (compile_timeout rq) 10000)
              (number_or (run_timeout rq) 3000) s1)
    as [(_ & sB & Hcrash & _) | (resp & s2 & -> & Hcase)]; [congruence|].
  destruct Hcase as [(Hno & _) | [(_ & e' & sB & Hthrow & -> & ->)
                                 | (_ & result' & sB & Hh' & _)]];
    [congruence | | congruence].
  rewrite Hh in Hthrow. injection Hthrow as <- <-.
  eexists. split; [reflexivity|].
  rewrite rmSync_trace. cbn [emit trace]. unfold exec_calls, rm_calls.
  rewrite !omap_app, Hx, Hr, (mkdirSync_ok P _ _ _ Hmk), !omap_app. cbn [omap].
  rewrite !app_nil_r. split; reflexivity.
Qed.

(** X8. When the workspace directory cannot be created, the exception leaves
    the handler: there is no response, no cleanup and no command; the failed
    [mkdir] is the only thing that happened. *)
Theorem mkdir_failure_escapes rq s e s1 :
  let jobDir := join EXEC_DIR (uuidv4 P (world s)).1 in
  mkdirSync P jobDir (set_world (uuidv4 P (world s)).2 s) = (Throw e, s1) ->
  piston_execute P rq s = (Throw e, s1)
  /\ trace s1 = trace s ++ [EvMkdir jobDir]
  /\ dirs (world s1) = dirs ((uuidv4 P (world s)).2).
Proof.
  intros jobDir Hmk. rewrite piston_execute_unfold. fold jobDir.
  rewrite Hmk. split; [reflexivity|].
  unfold mkdirSync, fs_call in Hmk. cbn [set_world world] in Hmk.
  destruct (fs_throws P (Mkdir jobDir) (uuidv4 P (world s)).2);
    [|discriminate].
  injection Hmk as _ <-. split; reflexivity.
Qed.

Lemma batch_values_timed runCmd jobDir rT ins :
  forall s, Forall (fun r => timeMs r <> None)
                   (batch_values P runCmd jobDir rT ins s).
Proof.
  induction ins as [|x rest IH]; intros s; cbn [batch_values]; [constructor|].
  destruct (run_value P runCmd jobDir rT x s) as [r|] eqn:Hv; constructor.
  - unfold run_value in Hv. cbn zeta in Hv.
    destruct (exec P _ _).1; [|discriminate..]. injection Hv as <-.
    unfold on_exit. destruct (killed_by_SIGTERM _); discriminate.
  - apply IH.
Qed.

(** X9. In a response with a job, the top-level [run] has no [timeMs]
    exactly when [results] is empty: a synthesized [run] can be told from a
    real one by its missing [timeMs], not by its code. *)
Theorem run_untimed_iff_no_results rq s resp s' l c r rs :
  piston_execute P rq s = (Ok resp, s') ->
  body resp = JobBody l c r rs ->
  timeMs r = None <-> rs = [].
Proof.
  intros Hx Hbody.
  destruct (job_response P rq s resp s' l c r rs Hx Hbody)
    as (result & jobDir & s1 & sA & Hh & _ & _ & _ & -> & <-).
  rewrite handleBatchExecution_unfold in Hh.
  destruct (write_files P l jobDir _ s1) as [[[]|e|] s2]; [|discriminate..].
  destruct (compile_step P l jobDir _ s2) as [[[cr runCmd]|e|] s3];
    [|discriminate..].
  destruct (negb (code cr =? 0)%Z).
  - injection Hh as <- _. cbn [results]. split; reflexivity.
  - destruct (run_batch P runCmd jobDir _ (batch_inputs rq) [] s3)
      as [[rs|e|] s4] eqn:Hr; [|discriminate..].
    injection Hh as <- _. cbn [results].
    pose proof (run_batch_ok P _ _ _ _ _ _ _ _ Hr) as Hall.
    rewrite (run_batch_unfold P _ _ _ _ _ _ Hall) in Hr. injection Hr as <- _.
    pose proof (batch_values_timed runCmd jobDir
                  (number_or (run_timeout rq) 3000) (batch_inputs rq) s3) as Ht.
    cbn [app].
    destruct (batch_values P runCmd jobDir _ (batch_inputs rq) s3) as [|r0 rest].
    + split; reflexivity.
    + cbn [legacy_run]. inversion Ht; subst. split; [tauto|discriminate].
Qed.

(** X10. The language tag is read without regard to case and through its
    aliases: a request in a supported language is handled exactly like the
    same request with the internal name of the language. *)
Theorem aliases_are_equivalent rq s :
  includes SUPPORTED (toLowerCase (str_or (language rq) "")) = true ->
  piston_execute P (canonical rq) s = piston_execute P rq s.
Proof.
  intros Hsup. unfold piston_execute, canonical.
  cbn [language files stdin inputs compile_timeout run_timeout batch_inputs].
  unfold batch_inputs.
  cbn [language files stdin inputs compile_timeout run_timeout].
  apply supported_cases in Hsup.
  set (l := toLowerCase (str_or (language rq) "")) in *. clearbody l.
  destruct Hsup as [->|[->|[->|[->|[->|[->| ->]]]]]]; reflexivity.
Qed.

Lemma exec_calls_execs (l : list ExecRequest) : exec_calls (map EvExec l) = l.
Proof. induction l as [|x l IH]; [reflexivity|]. simpl. f_equal. exact IH. Qed.

Lemma exec_shape_batch l jobDir fl ins cT rT s :
  exists reqs,
    exec_calls (trace (handleBatchExecution P l jobDir fl ins cT rT s).2)
      = exec_calls (trace s) ++ reqs
    /\ Forall (fun r => req_cwd r = jobDir
                        /\ req_maxBuffer r = 10485760
                        /\ (req_timeout r = cT \/ req_timeout r = rT)) reqs.
Proof.
  rewrite handleBatchExecution_unfold.
  pose proof (write_files_silent P
                (fun ev => match ev with EvExec r => Some r | _ => None end)
                l jobDir (fun _ _ => eq_refl) fl s) as Hw.
  fold (exec_calls (trace s)) in Hw.
  destruct (write_files P l jobDir fl s) as [[[]|e|] s1]; cbn [snd] in Hw |- *.
  2,3: exists []; rewrite app_nil_r; split; [exact Hw | constructor].
  fold (exec_calls (trace s1)) in Hw.
  assert (Forall (fun r => req_cwd r = jobDir
                           /\ req_maxBuffer r = 10485760
                           /\ (req_timeout r = cT \/ req_timeout r = rT))
                 (compile_requests l jobDir cT)) as Hcomp.
  { unfold compile_requests. destruct (compile_command l); repeat constructor. }
  pose proof (compile_step_trace P l jobDir cT s1) as Hx.
  assert (exec_calls (trace (compile_step P l jobDir cT s1).2)
          = exec_calls (trace s) ++ compile_requests l jobDir cT) as Hx2.
  { rewrite Hx. unfold exec_calls at 1. rewrite omap_app.
    fold (exec_calls (trace s1)). rewrite Hw. f_equal. apply exec_calls_execs. }
  clear Hx.
  destruct (compile_step P l jobDir cT s1) as [[[c runCmd]|e|] s2];
    cbn [snd] in Hx2 |- *.
  2,3: exists (compile_requests l jobDir cT); split; assumption.
  destruct (negb (code c =? 0)%Z); cbn [snd].
  { exists (compile_requests l jobDir cT). split; assumption. }
  destruct (run_batch_trace P runCmd jobDir rT ins [] s2) as [k Hk].
  exists (compile_requests l jobDir cT
          ++ map (request runCmd jobDir rT) (take k ins)).
  split.
  - assert (exec_calls (trace (run_batch P runCmd jobDir rT ins [] s2).2)
            = (exec_calls (trace s) ++ compile_requests l jobDir cT)
              ++ map (request runCmd jobDir rT) (take k ins)) as Hrun.
    { rewrite Hk. unfold exec_calls at 1. rewrite omap_app.
      fold (exec_calls (trace s2)). rewrite Hx2. f_equal.
      apply (exec_calls_map (request runCmd jobDir rT)). }
    rewrite app_assoc.
    destruct (run_batch P runCmd jobDir rT ins [] s2) as [[rs|e|] s3];
      exact Hrun.
  - apply Forall_app. split; [exact Hcomp|].
    apply Forall_forall. intros r Hr. apply list_elem_of_fmap in Hr
      as (input & -> & _). cbn. auto.
Qed.

Lemma exec_shape_try l jobDir fl ins cT rT s1 :
  exists reqs,
    exec_calls (trace (try_catch (job_try P l jobDir fl ins cT rT)
                         job_catch s1).2)
      = exec_calls (trace s1) ++ reqs
    /\ Forall (fun r => req_cwd r = jobDir
                        /\ req_maxBuffer r = 10485760
                        /\ (req_timeout r = cT \/ req_timeout r = rT)) reqs.
Proof.
  destruct (exec_shape_batch (internal_name l) jobDir fl ins cT rT s1)
    as (reqs & Hreqs & Hall).
  destruct (job_try_catch_cases P l jobDir fl ins cT rT s1)
    as [(_ & sA & Hh & ->) | (resp & s2 & -> & Hcase)]; cbn [snd].
  - exists reqs. rewrite Hh in Hreqs. split; assumption.
  - destruct Hcase as [(_ & _ & ->) | [(_ & e & sA & Hh & _ & ->)
                                      | (_ & result & sA & Hh & _ & ->)]].
    + exists []. cbn [emit trace]. unfold exec_calls.
      rewrite omap_app, !app_nil_r. split; [reflexivity | constructor].
    + exists reqs. rewrite Hh in Hreqs. cbn [snd emit trace] in *.
      unfold exec_calls at 1. rewrite omap_app, app_nil_r.
      split; assumption.
    + exists reqs. rewrite Hh in Hreqs. cbn [snd emit trace] in *.
      unfold exec_calls at 1. rewrite omap_app, app_nil_r.
      split; assumption.
Qed.

(** X11. Whatever the request and however the handler ends, every command it
    executes runs in the workspace of the job, with the 10 MB buffer and
    with the compile timeout or the run timeout of the request (10000 and
    3000 ms when they are absent or 0). *)
Theorem commands_stay_in_workspace rq s :
  exists reqs,
    exec_calls (trace (piston_execute P rq s).2) = exec_calls (trace s) ++ reqs
    /\ Forall (fun r =>
                 req_cwd r = join EXEC_DIR (uuidv4 P (world s)).1
                 /\ req_maxBuffer r = 10485760
                 /\ (req_timeout r = number_or (compile_timeout rq) 10000
                     \/ req_timeout r = number_or (run_timeout rq) 3000)) reqs.
Proof.
  rewrite piston_execute_unfold.
  set (jobDir := join EXEC_DIR (uuidv4 P (world s)).1).
  pose proof (fs_call_trace P (Mkdir jobDir) (EvMkdir jobDir) (add_dir jobDir)
                (set_world (uuidv4 P (world s)).2 s)) as Ht.
  unfold mkdirSync at 1.
  destruct (fs_call P (Mkdir jobDir) _ _ _) as [[[]|e|] s1];
    cbn [snd set_world trace] in Ht |- *.
  2,3: exists []; rewrite Ht, app_nil_r; unfold exec_calls;
       rewrite omap_app, app_nil_r; split; [reflexivity | constructor].
  assert (exec_calls (trace s1) = exec_calls (trace s)) as Hs1.
  { rewrite Ht. unfold exec_calls. rewrite omap_app. apply app_nil_r. }
  destruct (exec_shape_try (toLowerCase (str_or (language rq) "")) jobDir
              (default [] (files rq)) (batch_inputs rq)
              (number_or (compile_timeout rq) 10000)
              (number_or (run_timeout rq) 3000) s1) as (reqs & Hreqs & Hall).
  exists reqs. split; [|exact Hall]. rewrite Hs1 in Hreqs.
  destruct (try_catch _ job_catch s1) as [[resp|e|] s2]; cbn [snd] in *;
    try rewrite rmSync_trace; try exact Hreqs;
    unfold exec_calls at 1; rewrite omap_app, app_nil_r; exact Hreqs.
Qed.

(** X19. An exception of the batch executor, be it a write that fails or an
    [exec] that refuses its options as it does for a negative timeout, is
    answered with status 500 and the message of the exception (or its
    rendering when the message is empty); the response is the last thing
    before the cleanup, which still runs once. *)
Theorem executor_exception_gives_500 rq s s1 e sA :
  let language := toLowerCase (str_or (language rq) "") in
  let jobDir := join EXEC_DIR (uuidv4 P (world s)).1 in
  let resp := {| status := 500;
                 body := ErrorBody (if truthy (message e) then message e
                                    else String_of_exn e) |} in
  mkdirSync P jobDir (set_world (uuidv4 P (world s)).2 s) = (Ok tt, s1) ->
  includes SUPPORTED language = true ->
  handleBatchExecution P (internal_name language) jobDir
    (default [] (files rq)) (batch_inputs rq)
    (number_or (compile_timeout rq) 10000)
    (number_or (run_timeout rq) 3000) s1 = (Throw e, sA) ->
  exists s',
    piston_execute P rq s = (Ok resp, s')
    /\ trace s' = trace sA ++ [EvRespond resp; EvRm jobDir]
    /\ responses (trace s') = responses (trace s) ++ [resp].
Proof.
  intros language jobDir resp Hmk Hsup Hh.
  pose proof (handleBatchExecution_silent P
                (fun ev => match ev with EvRespond r => Some r | _ => None end)
                (internal_name language) jobDir (default [] (files rq))
                (batch_inputs rq) (number_or (compile_timeout rq) 10000)
                (number_or (run_timeout rq) 3000) s1
                (fun _ _ => eq_refl) (fun _ => eq_refl)) as Hsil.
  rewrite Hh in Hsil. cbn [snd] in Hsil.
  rewrite piston_execute_unfold. fold jobDir language. rewrite Hmk.
  destruct (job_try_catch_cases P language jobDir (default [] (files rq))
              (batch_inputs rq) (number_or (compile_timeout rq) 10000)
              (number_or (run_timeout rq) 3000) s1)
    as [(_ & sB & Hcrash & _) | (resp' & s2 & -> & Hcase)]; [congruence|].
  destruct Hcase as [(Hno & _) | [(_ & e' & sB & Hthrow & -> & ->)
                                 | (_ & result' & sB & Hh' & _)]];
    [congruence | | congruence].
  rewrite Hh in Hthrow. injection Hthrow as <- <-.
  eexists. split; [reflexivity|].
  rewrite rmSync_trace. cbn [emit trace]. split.
  - rewrite <- app_assoc. reflexivity.
  - unfold responses. rewrite !omap_app, Hsil, (mkdirSync_ok P _ _ _ Hmk).
    rewrite omap_app. cbn [omap]. rewrite !app_nil_r. reflexivity.
Qed.

(** X20. When a command of the job stops the handler for good, because a
    write to the stdin of its child ends the server process or because the
    child never ends, the handler never answers and never reaches its
    cleanup: no response is sent and [fs.rmSync] is not called, so the
    workspace is left behind. *)
Theorem stopped_job_leaves_workspace rq s s1 sA :
  let language := toLowerCase (str_or (language rq) "") in
  let jobDir := join EXEC_DIR (uuidv4 P (world s)).1 in
  mkdirSync P jobDir (set_world (uuidv4 P (world s)).2 s) = (Ok tt, s1) ->
  includes SUPPORTED language = true ->
  handleBatchExecution P (internal_name language) jobDir
    (default [] (files rq)) (batch_inputs rq)
    (number_or (compile_timeout rq) 10000)
    (number_or (run_timeout rq) 3000) s1 = (Crash, sA) ->
  piston_execute P rq s = (Crash, sA)
  /\ responses (trace sA) = responses (trace s)
  /\ rm_calls (trace sA) = rm_calls (trace s)
  /\ mkdir_calls (trace sA) = mkdir_calls (trace s) ++ [jobDir].
Proof.
  intros language jobDir Hmk Hsup Hh.
  pose proof (fun A f Hw He =>
                @handleBatchExecution_silent P A f
                  (internal_name language) jobDir (default [] (files rq))
                  (batch_inputs rq) (number_or (compile_timeout rq) 10000)
                  (number_or (run_timeout rq) 3000) s1 Hw He) as Hsil.
  rewrite Hh in Hsil. cbn [snd] in Hsil.
  split; [|split; [|split]].
  - rewrite piston_execute_unfold. fold jobDir language. rewrite Hmk.
    destruct (job_try_catch_cases P language jobDir (default [] (files rq))
                (batch_inputs rq) (number_or (compile_timeout rq) 10000)
                (number_or (run_timeout rq) 3000) s1)
      as [(_ & sB & Hcrash & ->) | (resp' & s2 & _ & Hcase)].
    + congruence.
    + destruct Hcase as [(Hno & _) | [(_ & e' & sB & Hthrow & _)
                                     | (_ & result' & sB & Hh' & _)]];
        congruence.
  - unfold responses. rewrite Hsil by reflexivity.
    rewrite (mkdirSync_ok P _ _ _ Hmk). apply omap_snoc. reflexivity.
  - unfold rm_calls. rewrite Hsil by reflexivity.
    rewrite (mkdirSync_ok P _ _ _ Hmk). apply omap_snoc. reflexivity.
  - unfold mkdir_calls. rewrite Hsil by reflexivity.
    rewrite (mkdirSync_ok P _ _ _ Hmk), omap_app. reflexivity.
Qed.

End EndpointMore.

(** * The process runner on Node *)

Section OnNode.

Variable P : Platform.
Variable N : NodeRuntime.
Hypothesis Hnode : exec P = node_exec N.



(** X23. A negative timeout is refused by [exec] before any child is
    started: [runCommand] rejects with the exception of [exec]. *)
Theorem negative_timeout_rejects cmd cwd timeoutMs inputStr s :
  timeoutMs < 0 ->
  exists s',
    runCommand P cmd cwd timeoutMs inputStr s
      = (Throw (range_error N timeoutMs), s')
    /\ world s' = world s.
Proof.
  intros Ht. eexists. rewrite runCommand_unfold, Hnode.
  unfold run_state. rewrite Hnode. unfold node_exec.
  change (req_timeout (request cmd cwd timeoutMs inputStr)) with timeoutMs.
  assert ((timeoutMs <? 0)%Z = true) as -> by (apply Z.ltb_lt; exact Ht).
  split; reflexivity.
Qed.

End OnNode.

(** * The single-run server and the batch server *)

Section TwoServers.

Variable P : Platform.

Lemma file_name_default l dflt f :
  (l = "cpp" /\ dflt = "main.cpp") \/ (l = "python" /\ dflt = "main.py")
  \/ (l = "java" /\ dflt = "Main.java")
  \/ (l = "javascript" /\ dflt = "main.js") ->
  file_name l f = Some (str_or (name f) dflt).
Proof.
  intros H. unfold file_name, str_or, falsy.
  destruct (name f) as [n|]; [destruct (truthy n); cbn [negb]|];
    try reflexivity;
    destruct H as [[-> ->]|[[-> ->]|[[-> ->]|[-> ->]]]]; reflexivity.
Qed.

(** Both servers write the files of a compiled language in the same way. *)
Lemma save_sources_write_files l dflt jobDir fl :
  (l = "cpp" /\ dflt = "main.cpp") \/ (l = "python" /\ dflt = "main.py")
  \/ (l = "java" /\ dflt = "Main.java")
  \/ (l = "javascript" /\ dflt = "main.js") ->
  forall s, Legacy.save_sources P dflt jobDir fl s = write_files P l jobDir fl s.
Proof.
  intros Hl. induction fl as [|f rest IH]; intros s; [reflexivity|].
  cbn [Legacy.save_sources write_files].
  rewrite !bind_unfold, (file_name_default l dflt f Hl).
  unfold path_join, mret, M_ret. rewrite bind_unfold.
  destruct (writeFileSync P _ _ s) as [[[]|e|] s1]; [apply IH | reflexivity..].
Qed.

(** The loop of the interpreted languages writes like the batch executor and
    also computes the entry file. *)
Lemma save_scripts_write_files l dflt ext jobDir fl :
  (l = "cpp" /\ dflt = "main.cpp") \/ (l = "python" /\ dflt = "main.py")
  \/ (l = "java" /\ dflt = "Main.java")
  \/ (l = "javascript" /\ dflt = "main.js") ->
  forall m0 s,
    Legacy.save_scripts P dflt ext jobDir fl m0 s =
    match write_files P l jobDir fl s with
    | (Ok _, s1) =>
        (Ok (default m0
               (last_match ext (map (fun f => str_or (name f) dflt) fl))), s1)
    | (Throw e, s1) => (Throw e, s1)
    | (Crash, s1) => (Crash, s1)
    end.
Proof.
  intros Hl. induction fl as [|f rest IH]; intros m0 s; [reflexivity|].
  cbn [Legacy.save_scripts write_files].
  rewrite !bind_unfold, (file_name_default l dflt f Hl).
  unfold path_join, mret, M_ret. rewrite bind_unfold.
  destruct (writeFileSync P _ _ s) as [[[]|e|] s1]; [|reflexivity..].
  rewrite IH. destruct (write_files P l jobDir rest s1) as [[[]|e|] s2];
    [|reflexivity..].
  cbn [map last_match].
  destruct (last_match ext (map (fun f => str_or (name f) dflt) rest));
    [reflexivity|].
  destruct (endsWith (str_or (name f) dflt) ext); reflexivity.
Qed.

(** A run of the single-run server and the batch of one input. *)
Lemma single_run_is_batch_of_one (compiled : bool) runCmd jobDir rT input c s :
  (compiled = false -> c = synthesized) ->
  same_job compiled
    ((runCommand P runCmd jobDir rT (str_or (Some input) "") ≫= fun runRes =>
      mret {| Legacy.compile := if compiled then Some c else None;
              Legacy.run := Some runRes |}) s)
    (match run_batch P runCmd jobDir rT [input] [] s with
     | (Ok rs, s3) => (Ok {| compile := c; results := rs |}, s3)
     | (Throw e, s3) => (Throw e, s3)
     | (Crash, s3) => (Crash, s3)
     end).
Proof.
  intros Hc. cbn [run_batch]. rewrite !bind_unfold, str_or_self.
  rewrite runCommand_unfold.
  destruct (exec P (request runCmd jobDir rT input) (world s)).1 as [cb|e|];
    unfold same_job, mret, M_ret; cbn [fst snd app results head];
    repeat split; try reflexivity; exact Hc.
Qed.

Lemma compiled_handler_agrees l cmd dflt jobDir fl input cT rT s :
  (l = "cpp" /\ dflt = "main.cpp") \/ (l = "java" /\ dflt = "Main.java") ->
  compile_command l = Some cmd ->
  same_job true
    ((Legacy.save_sources P dflt jobDir fl ≫= fun _ =>
      runCommand P cmd jobDir cT "" ≫= fun compileRes =>
      if negb (code compileRes =? 0)%Z
      then mret {| Legacy.compile := Some compileRes; Legacy.run := None |}
      else runCommand P (run_command l) jobDir rT (str_or (Some input) "")
             ≫= fun runRes =>
           mret {| Legacy.compile := Some compileRes;
                   Legacy.run := Some runRes |}) s)
    (handleBatchExecution P l jobDir fl [input] cT rT s).
Proof.
  intros Hl Hcmd. rewrite handleBatchExecution_unfold.
  rewrite bind_unfold, (save_sources_write_files l) by tauto.
  destruct (write_files P l jobDir fl s) as [[[]|e|] s1];
    [|split; reflexivity..].
  rewrite bind_unfold, (compile_step_some P l jobDir cT s1 cmd Hcmd).
  rewrite runCommand_unfold. cbn [fst].
  destruct (exec P (request cmd jobDir cT "") (world s1)).1 as [cb|e|];
    [|split; reflexivity..].
  destruct (negb (code _ =? 0)%Z).
  - unfold same_job, mret, M_ret. cbn [fst snd results head].
    repeat split; (reflexivity || discriminate).
  - apply (single_run_is_batch_of_one true). discriminate.
Qed.

(** X12. For C++ and for Java the batch executor given the single input
    [stdin] does what the handler of the single-run server does: the same
    files, the same commands in the same states, the same compile result,
    and a [run] that is the one entry of [results], or no [run] and no
    entry when the compile code is not 0. *)
Theorem compiled_handlers_agree jobDir fl input cT rT s :
  same_job true (Legacy.handleCPP P jobDir fl input cT rT s)
                (handleBatchExecution P "cpp" jobDir fl [input] cT rT s)
  /\ same_job true (Legacy.handleJava P jobDir fl input cT rT s)
                   (handleBatchExecution P "java" jobDir fl [input] cT rT s).
Proof.
  split.
  - apply (compiled_handler_agrees "cpp" _ "main.cpp"); [tauto | reflexivity].
  - apply (compiled_handler_agrees "java" _ "Main.java"); [tauto | reflexivity].
Qed.

(** X13. For python the two servers do the same when the entry file of the
    submitted names is the default [main.py]; then the batch executor's
    fixed command is the command of [handlePython]. *)
Theorem python_handlers_agree jobDir fl input cT rT s :
  entry_file "main.py" ".py" fl = "main.py" ->
  same_job false (Legacy.handlePython P jobDir fl input rT s)
                 (handleBatchExecution P "python" jobDir fl [input] cT rT s).
Proof.
  unfold entry_file. intros Hentry.
  rewrite handleBatchExecution_unfold. unfold Legacy.handlePython.
  rewrite bind_unfold, (save_scripts_write_files "python") by tauto.
  destruct (write_files P "python" jobDir fl s) as [[[]|e|] s1];
    [|split; reflexivity..].
  rewrite Hentry.
  change (compile_step P "python" jobDir cT s1)
    with (Ok (synthesized, "python3 main.py"), s1).
  change (negb (code synthesized =? 0)%Z) with false. cbv iota.
  apply (single_run_is_batch_of_one false). reflexivity.
Qed.

(** X14. And so for JavaScript, when the entry file is [main.js]. *)
Theorem js_handlers_agree jobDir fl input cT rT s :
  entry_file "main.js" ".js" fl = "main.js" ->
  same_job false (Legacy.handleJS P jobDir fl input rT s)
                 (handleBatchExecution P "javascript" jobDir fl [input] cT rT s).
Proof.
  unfold entry_file. intros Hentry.
  rewrite handleBatchExecution_unfold. unfold Legacy.handleJS.
  rewrite bind_unfold, (save_scripts_write_files "javascript") by tauto.
  destruct (write_files P "javascript" jobDir fl s) as [[[]|e|] s1];
    [|split; reflexivity..].
  rewrite Hentry.
  change (compile_step P "javascript" jobDir cT s1)
    with (Ok (synthesized, "node main.js"), s1).
  change (negb (code synthesized =? 0)%Z) with false. cbv iota.
  apply (single_run_is_batch_of_one false). reflexivity.
Qed.

End TwoServers.

(** * The endpoint of the single-run server *)

Section SingleRun.

Variable P : Platform.

Lemma compiled_handler_shape (m : M Legacy.HandlerResult) s h s' cmd runCmd
    jobDir cT rT input (pre : M unit) :
  m = (pre ≫= fun _ =>
       runCommand P cmd jobDir cT "" ≫= fun compileRes =>
       if negb (code compileRes =? 0)%Z
       then mret {| Legacy.compile := Some compileRes; Legacy.run := None |}
       else runCommand P runCmd jobDir rT input ≫= fun runRes =>
            mret {| Legacy.compile := Some compileRes;
                    Legacy.run := Some runRes |}) ->
  m s = (Ok h, s') ->
  exists c, Legacy.compile h = Some c
            /\ (Legacy.run h = None <-> code c <> 0).
Proof.
  intros -> H. rewrite bind_unfold in H.
  destruct (pre s) as [[[]|e|] s1]; [|discriminate..].
  rewrite bind_unfold in H.
  destruct (runCommand P cmd jobDir cT "" s1) as [[c|e|] s2];
    [|discriminate..].
  destruct (Z.eqb_spec (code c) 0) as [Hz|Hz]; cbn [negb] in H.
  - rewrite bind_unfold in H.
    destruct (runCommand P runCmd jobDir rT input s2) as [[r|e|] s3];
      [|discriminate..].
    injection H as <- _.
    exists c. split; [reflexivity|]. cbn. split; [discriminate | tauto].
  - injection H as <- _. exists c. split; [reflexivity|]. cbn. tauto.
Qed.

Lemma interpreted_handler_shape (m : M Legacy.HandlerResult) s h s' prefix
    jobDir rT input (pre : M string) :
  m = (pre ≫= fun mainFile =>
       runCommand P (prefix +:+ mainFile) jobDir rT input ≫= fun runRes =>
       mret {| Legacy.compile := None; Legacy.run := Some runRes |}) ->
  m s = (Ok h, s') ->
  Legacy.compile h = None /\ Legacy.run h <> None.
Proof.
  intros -> H. rewrite bind_unfold in H.
  destruct (pre s) as [[mainFile|e|] s1]; [|discriminate..].
  rewrite bind_unfold in H.
  destruct (runCommand P _ jobDir rT input s1) as [[r|e|] s2];
    [|discriminate..].
  injection H as <- _. split; [reflexivity | discriminate].
Qed.

(** The handler that produced a response with a job, by language. *)
Lemma single_run_job l jobDir fl input cT rT s1 resp s2 l' h :
  try_catch (Legacy.job_try P l jobDir fl input cT rT) Legacy.job_catch s1
    = (Ok resp, s2) ->
  Legacy.body resp = Legacy.JobBody l' h ->
  Legacy.status resp = 200 /\ l' = l
  /\ (((l = "cpp" \/ l = "c++" \/ l = "java")
       /\ exists c, Legacy.compile h = Some c
                    /\ (Legacy.run h = None <-> code c <> 0))
      \/ ((l = "python" \/ l = "javascript" \/ l = "node" \/ l = "js")
          /\ Legacy.compile h = None /\ Legacy.run h <> None)).
Proof.
  unfold try_catch, Legacy.job_try.
  destruct (String.eqb_spec l "cpp") as [Hcpp|Hcpp];
    [|destruct (String.eqb_spec l "c++") as [Hcxx|Hcxx]]; cbn [orb].
  1,2: rewrite bind_unfold;
       destruct (Legacy.handleCPP P jobDir fl input cT rT s1)
         as [[h0|e|] sA] eqn:Hh;
       [ intros [= <- _] [= <- <-];
         split; [reflexivity|]; split; [reflexivity|]; left;
         split; [tauto|];
         exact (compiled_handler_shape _ _ _ _ _ _ _ _ _ _ _ eq_refl Hh)
       | intros [= <- _]; discriminate
       | discriminate ].
  destruct (String.eqb_spec l "python") as [Hpy|Hpy].
  { rewrite bind_unfold.
    destruct (Legacy.handlePython P jobDir fl input rT s1)
      as [[h0|e|] sA] eqn:Hh.
    - intros [= <- _] [= <- <-].
      split; [reflexivity|]. split; [reflexivity|]. right. split; [tauto|].
      exact (interpreted_handler_shape _ _ _ _ _ _ _ _ _ eq_refl Hh).
    - intros [= <- _]; discriminate.
    - discriminate. }
  destruct (String.eqb_spec l "java") as [Hja|Hja].
  { rewrite bind_unfold.
    destruct (Legacy.handleJava P jobDir fl input cT rT s1)
      as [[h0|e|] sA] eqn:Hh.
    - intros [= <- _] [= <- <-].
      split; [reflexivity|]. split; [reflexivity|]. left. split; [tauto|].
      exact (compiled_handler_shape _ _ _ _ _ _ _ _ _ _ _ eq_refl Hh).
    - intros [= <- _]; discriminate.
    - discriminate. }
  destruct (String.eqb_spec l "javascript") as [Hjs|Hjs];
    [|destruct (String.eqb_spec l "node") as [Hno|Hno];
      [|destruct (String.eqb_spec l "js") as [Hj|Hj]]]; cbn [orb].
  1,2,3: rewrite bind_unfold;
         destruct (Legacy.handleJS P jobDir fl input rT s1)
           as [[h0|e|] sA] eqn:Hh;
         [ intros [= <- _] [= <- <-];
           split; [reflexivity|]; split; [reflexivity|]; right;
           split; [tauto|];
           exact (interpreted_handler_shape _ _ _ _ _ _ _ _ _ eq_refl Hh)
         | intros [= <- _]; discriminate
         | discriminate ].
  intros [= <- _]; discriminate.
Qed.

(** The handler of the single-run server from the allocation of the
    workspace on. *)
Lemma single_run_unfold rq s :
  Legacy.piston_execute P rq s =
  match mkdirSync P (join EXEC_DIR (uuidv4 P (world s)).1)
          (set_world (uuidv4 P (world s)).2 s) with
  | (Ok _, s1) =>
      match try_catch
              (Legacy.job_try P (toLowerCase (str_or (language rq) ""))
                 (join EXEC_DIR (uuidv4 P (world s)).1)
                 (default [] (files rq)) (str_or (stdin rq) "")
                 (number_or (compile_timeout rq) 5000)
                 (number_or (run_timeout rq) 3000))
              Legacy.job_catch s1 with
      | (Crash, s2) => (Crash, s2)
      | (r, s2) => (r, (rmSync P (join EXEC_DIR (uuidv4 P (world s)).1) s2).2)
      end
  | (Throw e, s1) => (Throw e, s1)
  | (Crash, s1) => (Crash, s1)
  end.
Proof.
  unfold Legacy.piston_execute. rewrite bind_unfold. unfold new_uuid.
  destruct (uuidv4 P (world s)) as [jobId w]. cbn [fst snd].
  rewrite bind_unfold.
  destruct (mkdirSync P (join EXEC_DIR jobId) (set_world w s)) as [[[]|e|] s1];
    [|reflexivity..].
  unfold try_catch_finally.
  destruct (try_catch _ _ s1) as [[r|e|] s2]; [| |reflexivity];
    rewrite job_finally_unfold; reflexivity.
Qed.

(** X15. In a response of the single-run server that carries a job, the
    language is the lowered tag as it was sent (an alias is not replaced),
    there is a [compile] field exactly for the tags [cpp], [c++] and [java],
    and there is no [run] field exactly when there is a [compile] whose code
    is not 0. *)
Theorem single_run_response_fields rq s resp s' l h :
  Legacy.piston_execute P rq s = (Ok resp, s') ->
  Legacy.body resp = Legacy.JobBody l h ->
  Legacy.status resp = 200
  /\ l = toLowerCase (str_or (language rq) "")
  /\ (Legacy.compile h <> None <-> l = "cpp" \/ l = "c++" \/ l = "java")
  /\ (Legacy.run h = None <->
      exists c, Legacy.compile h = Some c /\ code c <> 0).
Proof.
  rewrite single_run_unfold.
  destruct (mkdirSync P _ _) as [[[]|e|] s1]; [|discriminate..].
  destruct (try_catch _ Legacy.job_catch s1) as [[r|e|] s2] eqn:Htc;
    [|discriminate..].
  intros [= -> _] Hbody.
  destruct (single_run_job _ _ _ _ _ _ _ _ _ _ _ Htc Hbody)
    as (Hst & -> & Hcase).
  split; [exact Hst|]. split; [reflexivity|].
  set (lang := toLowerCase (str_or (language rq) "")) in *. clearbody lang.
  destruct Hcase as [(Hl & c & Hc & Hrun) | (Hl & Hc & Hrun)].
  - rewrite Hc. split.
    + split; [intros _; exact Hl | intros _; discriminate].
    + rewrite Hrun. split.
      * intros Hz. exists c. auto.
      * intros (c' & [= <-] & Hz). exact Hz.
  - rewrite Hc. split.
    + split; [congruence|].
      intros Hcomp.
      destruct Hl as [->|[->|[->| ->]]];
        destruct Hcomp as [H|[H|H]]; discriminate.
    + split; [contradiction|]. intros (c & H & _). discriminate.
Qed.

Lemma single_run_job_unsupported l jobDir fl input cT rT s1 :
  includes SUPPORTED l = false ->
  try_catch (Legacy.job_try P l jobDir fl input cT rT) Legacy.job_catch s1
  = (Ok {| Legacy.status := 400;
           Legacy.body := Legacy.ErrorBody ("Unsupported language: " +:+ l) |},
     s1).
Proof.
  intros Hsup. unfold try_catch, Legacy.job_try.
  unfold SUPPORTED, includes in Hsup.
  repeat match type of Hsup with
         | context [String.eqb ?a l] =>
             destruct (String.eqb_spec a l) as [<-|?];
             [discriminate|]; cbn [orb] in Hsup
         end.
  repeat match goal with
         | |- context [String.eqb l ?a] =>
             destruct (String.eqb_spec l a) as [->|?];
             [congruence|]; cbn [orb]
         end.
  reflexivity.
Qed.

(** X16. The single-run server, too, creates the workspace before it looks
    at the language: for an unsupported tag it answers with status 400, and
    the creation and the removal of the workspace are the only effects.  The
    message is [Unsupported language: ] followed by the lowered tag; its
    text is given here for the tags of ASCII characters. *)
Theorem single_run_unsupported rq s s1 :
  let tag := str_or (language rq) "" in
  let jobDir := join EXEC_DIR (uuidv4 P (world s)).1 in
  includes SUPPORTED (toLowerCase tag) = false ->
  mkdirSync P jobDir (set_world (uuidv4 P (world s)).2 s) = (Ok tt, s1) ->
  exists msg s3,
    Legacy.piston_execute P rq s
      = (Ok {| Legacy.status := 400; Legacy.body := Legacy.ErrorBody msg |}, s3)
    /\ (ascii_only tag = true ->
        msg = "Unsupported language: " +:+ toLowerCase tag)
    /\ trace s3 = trace s ++ [EvMkdir jobDir; EvRm jobDir].
Proof.
  intros tag jobDir Hsup Hmk.
  rewrite single_run_unfold. fold jobDir tag. rewrite Hmk.
  rewrite (single_run_job_unsupported _ _ _ _ _ _ _ Hsup).
  eexists. eexists. split; [reflexivity|]. split; [reflexivity|].
  rewrite rmSync_trace.
  pose proof (fs_call_trace P (Mkdir jobDir) (EvMkdir jobDir) (add_dir jobDir)
                (set_world (uuidv4 P (world s)).2 s)) as Ht.
  unfold mkdirSync in Hmk. rewrite Hmk in Ht. cbn [snd set_world trace] in Ht.
  rewrite Ht, <- app_assoc. reflexivity.
Qed.

End SingleRun.

(** * The further properties on the small platform *)

Lemma write_files_store_witness :
  let P := Demo.platform false in
  let s := Demo.workspace [] in
  let s1 := (write_files P "python" Demo.job Demo.overwritten s).2 in
  store (world s1)
    = list_to_map (reverse (written "python" Demo.job Demo.overwritten))
      ∪ store (world s)
  /\ trace s1
     = trace s ++ map (fun pc => EvWriteFile pc.1 pc.2)
                      (written "python" Demo.job Demo.overwritten)
  /\ dirs (world s1) = dirs (world s)
  /\ clock (world s1) = clock (world s).
Proof.
  intros P s s1.
  apply (write_files_store P "python" Demo.job Demo.overwritten s s1).
  vm_compute; reflexivity.
Defined.

(** [path.join] on names a request may carry. *)
Lemma join_examples :
  join Demo.job "main.py" = "/tmp/executions/job-a/main.py"
  /\ join Demo.job "./main.py" = "/tmp/executions/job-a/main.py"
  /\ join Demo.job "sub//lib.py" = "/tmp/executions/job-a/sub/lib.py"
  /\ join Demo.job "sub/../main.py" = "/tmp/executions/job-a/main.py"
  /\ join Demo.job "/etc/motd" = "/tmp/executions/job-a/etc/motd"
  /\ join Demo.job "../x" = "/tmp/executions/x"
  /\ join Demo.job "../../../../x" = "/x"
  /\ join Demo.job "out/" = "/tmp/executions/job-a/out/"
  /\ join Demo.job "." = "/tmp/executions/job-a"
  /\ join EXEC_DIR "job-a" = Demo.job.
Proof. vm_compute. repeat split. Qed.

(** The three files of [Demo.overwritten] are two files on disk. *)
Lemma overwritten_store :
  store (world (write_files (Demo.platform false) "python" Demo.job
                  Demo.overwritten (Demo.workspace [])).2)
  = {[ "/tmp/executions/job-a/a.py" := "print(3)";
       "/tmp/executions/job-a/main.py" := "print(2)" ]}.
Proof. vm_compute. reflexivity. Qed.

Lemma batch_commands_witness :
  let P := Demo.platform false in
  let out := handleBatchExecution P "cpp" Demo.job Demo.main_cpp ["1"; "2"]
               10000 3000 (Demo.workspace []) in
  exec_calls (trace out.2)
  = exec_calls (trace (Demo.workspace []))
    ++ compile_requests "cpp" Demo.job 10000
    ++ (if (code (on_exit 7 (Demo.exited 0 "" "")) =? 0)%Z
        then map (run_request "cpp" Demo.job 3000) ["1"; "2"]
        else []).
Proof.
  intros P out.
  apply (batch_commands P "cpp" Demo.job Demo.main_cpp ["1"; "2"] 10000 3000
           (Demo.workspace [])
           {| compile := on_exit 7 (Demo.exited 0 "" "");
              results := [on_exit 7 (Demo.exited 0 "1" "");
                          on_exit 7 (Demo.exited 0 "2" "")] |} out.2).
  vm_compute; reflexivity.
Defined.

Lemma compile_timeout_short_circuits_witness :
  let P := Demo.slow_compiler in
  let s := Demo.workspace [] in
  let s1 := (write_files P "cpp" Demo.job Demo.main_cpp s).2 in
  exists s2,
    handleBatchExecution P "cpp" Demo.job Demo.main_cpp ["1"; "2"] 10000 3000 s
      = (Ok {| compile := {| stdout := ""; stderr := "Time limit exceeded";
                             code := 124;
                             timeMs := Some (clock (Demo.tick (world s1))
                                             - clock (world s1)) |};
               results := [] |}, s2).
Proof.
  intros P s s1.
  apply (compile_timeout_short_circuits P "cpp" Demo.job Demo.main_cpp
           ["1"; "2"] 10000 3000 s s1
           "g++ -std=c++17 -O2 -pipe -static -s *.cpp -o main"
           Demo.deadline_error "" "" (Demo.tick (world s1)));
    vm_compute; reflexivity.
Defined.




Lemma write_failure_gives_500_witness :
  let P := Demo.faulty Demo.is_write in
  let rq := Demo.post "python" Demo.echo_py ["hi"] in
  let e := {| exn_name := "Error"; message := "EIO: i/o error" |} in
  exists s',
    piston_execute P rq Demo.boot
      = (Ok {| status := 500;
               body := ErrorBody (if truthy (message e) then message e
                                  else String_of_exn e) |}, s')
    /\ exec_calls (trace s') = exec_calls (trace Demo.boot)
    /\ rm_calls (trace s') = rm_calls (trace Demo.boot) ++ [Demo.job].
Proof.
  intros P rq e.
  pose (s1 := (mkdirSync P Demo.job
                 (set_world (uuidv4 P (world Demo.boot)).2 Demo.boot)).2).
  apply (write_failure_gives_500 P rq Demo.boot s1 e
           (write_files P "python" Demo.job Demo.echo_py s1).2);
    vm_compute; reflexivity.
Defined.

Lemma mkdir_failure_escapes_witness :
  let P := Demo.faulty Demo.is_mkdir in
  let rq := Demo.post "python" Demo.echo_py ["hi"] in
  let e := {| exn_name := "Error"; message := "EIO: i/o error" |} in
  let s1 := (mkdirSync P Demo.job
               (set_world (uuidv4 P (world Demo.boot)).2 Demo.boot)).2 in
  piston_execute P rq Demo.boot = (Throw e, s1)
  /\ trace s1 = trace Demo.boot ++ [EvMkdir Demo.job]
  /\ dirs (world s1) = dirs ((uuidv4 P (world Demo.boot)).2).
Proof.
  intros P rq e s1.
  apply (mkdir_failure_escapes P rq Demo.boot e s1).
  vm_compute; reflexivity.
Defined.

Lemma run_untimed_iff_no_results_witness :
  let c := {| stdout := ""; stderr := "error: expected primary-expression";
              code := 1; timeMs := Some 7 |} in
  timeMs synthesized = None <-> @nil CmdResult = [].
Proof.
  intros c.
  apply (run_untimed_iff_no_results (Demo.platform false)
           (Demo.post "cpp" Demo.broken_cpp ["x"]) Demo.boot
           {| status := 200; body := JobBody "cpp" (Some c) synthesized [] |}
           (piston_execute (Demo.platform false)
              (Demo.post "cpp" Demo.broken_cpp ["x"]) Demo.boot).2
           "cpp" (Some c) synthesized []);
    vm_compute; reflexivity.
Defined.

Lemma aliases_are_equivalent_witness :
  let P := Demo.platform false in
  let rq := Demo.post "C++" Demo.main_cpp ["1"] in
  piston_execute P (canonical rq) Demo.boot = piston_execute P rq Demo.boot.
Proof.
  intros P rq.
  apply (aliases_are_equivalent P rq Demo.boot).
  vm_compute; reflexivity.
Defined.

Lemma python_handlers_agree_witness :
  let P := Demo.platform false in
  same_job false
    (Legacy.handlePython P Demo.job Demo.echo_py "hi" 3000 (Demo.workspace []))
    (handleBatchExecution P "python" Demo.job Demo.echo_py ["hi"] 10000 3000
       (Demo.workspace [])).
Proof.
  intros P.
  apply (python_handlers_agree P Demo.job Demo.echo_py "hi" 10000 3000
           (Demo.workspace [])).
  vm_compute; reflexivity.
Defined.

Lemma js_handlers_agree_witness :
  let P := Demo.platform false in
  let fl := [Demo.source (Some "notes.txt") "to do";
             Demo.source None "console.log(1)"] in
  same_job false
    (Legacy.handleJS P Demo.job fl "hi" 3000 (Demo.workspace []))
    (handleBatchExecution P "javascript" Demo.job fl ["hi"] 10000 3000
       (Demo.workspace [])).
Proof.
  intros P fl.
  apply (js_handlers_agree P Demo.job fl "hi" 10000 3000 (Demo.workspace [])).
  vm_compute; reflexivity.
Defined.

Lemma single_run_response_fields_witness :
  let P := Demo.platform false in
  let rq := Demo.post "C++" Demo.main_cpp [] in
  let ok := {| stdout := ""; stderr := ""; code := 0; timeMs := Some 7 |} in
  let h := {| Legacy.compile := Some ok; Legacy.run := Some ok |} in
  let resp := {| Legacy.status := 200;
                 Legacy.body := Legacy.JobBody "c++" h |} in
  Legacy.status resp = 200
  /\ "c++" = toLowerCase (str_or (language rq) "")
  /\ (Legacy.compile h <> None <-> "c++" = "cpp" \/ "c++" = "c++" \/ "c++" = "java")
  /\ (Legacy.run h = None <->
      exists c, Legacy.compile h = Some c /\ code c <> 0).
Proof.
  intros P rq ok h resp.
  apply (single_run_response_fields P rq Demo.boot resp
           (Legacy.piston_execute P rq Demo.boot).2 "c++" h);
    vm_compute; reflexivity.
Defined.

Lemma single_run_unsupported_witness :
  let P := Demo.platform false in
  let rq := Demo.post "Ruby" Demo.echo_py ["x"] in
  exists msg s3,
    Legacy.piston_execute P rq Demo.boot
      = (Ok {| Legacy.status := 400; Legacy.body := Legacy.ErrorBody msg |}, s3)
    /\ (ascii_only "Ruby" = true ->
        msg = "Unsupported language: " +:+ toLowerCase "Ruby")
    /\ trace s3 = trace Demo.boot ++ [EvMkdir Demo.job; EvRm Demo.job].
Proof.
  intros P rq.
  apply (single_run_unsupported P rq Demo.boot
           (mkdirSync P Demo.job
              (set_world (uuidv4 P (world Demo.boot)).2 Demo.boot)).2);
    vm_compute; reflexivity.
Defined.

Lemma handlePython_entry_file_witness :
  let P := Demo.platform false in
  let s := Demo.workspace [] in
  exec_calls (trace (Legacy.handlePython P Demo.job Demo.solution_py "hi" 3000
                       s).2)
  = exec_calls (trace s)
    ++ [request ("python3 " +:+ entry_file "main.py" ".py" Demo.solution_py)
          Demo.job 3000 "hi"].
Proof.
  intros P s.
  apply (handlePython_entry_file P Demo.job Demo.solution_py "hi" 3000 s
           {| Legacy.compile := None;
              Legacy.run := Some {| stdout := "hi"; stderr := ""; code := 0;
                                    timeMs := Some 7 |} |}).
  vm_compute; reflexivity.
Defined.

Lemma handleJS_entry_file_witness :
  let P := Demo.platform false in
  let s := Demo.workspace [] in
  exec_calls (trace (Legacy.handleJS P Demo.job Demo.app_js "hi" 3000 s).2)
  = exec_calls (trace s)
    ++ [request ("node " +:+ entry_file "main.js" ".js" Demo.app_js)
          Demo.job 3000 "hi"].
Proof.
  intros P s.
  apply (handleJS_entry_file P Demo.job Demo.app_js "hi" 3000 s
           {| Legacy.compile := None;
              Legacy.run := Some {| stdout := "hi"; stderr := ""; code := 0;
                                    timeMs := Some 7 |} |}).
  vm_compute; reflexivity.
Defined.

Lemma executor_exception_gives_500_witness :
  let P := Demo.platform false in
  let rq := {| language := Some "python"; files := Some Demo.echo_py;
               stdin := None; inputs := Some ["1"; "2"];
               compile_timeout := None; run_timeout := Some (-1) |} in
  let resp := {| status := 500;
                 body := ErrorBody
                           (if truthy (message (Demo.out_of_range (-1)))
                            then message (Demo.out_of_range (-1))
                            else String_of_exn (Demo.out_of_range (-1))) |} in
  let s1 := (mkdirSync P Demo.job
               (set_world (uuidv4 P (world Demo.boot)).2 Demo.boot)).2 in
  let sA := (handleBatchExecution P "python" Demo.job Demo.echo_py ["1"; "2"]
               10000 (-1) s1).2 in
  exists s',
    piston_execute P rq Demo.boot = (Ok resp, s')
    /\ trace s' = trace sA ++ [EvRespond resp; EvRm Demo.job]
    /\ responses (trace s') = responses (trace Demo.boot) ++ [resp].
Proof.
  intros P rq resp s1 sA.
  apply (executor_exception_gives_500 P rq Demo.boot s1
           (Demo.out_of_range (-1)) sA);
    vm_compute; reflexivity.
Defined.

Lemma stopped_job_leaves_workspace_witness :
  let P := Demo.on_node Demo.fragile in
  let rq := Demo.post "python" Demo.echo_py ["hi"] in
  let s1 := (mkdirSync P Demo.job
               (set_world (uuidv4 P (world Demo.boot)).2 Demo.boot)).2 in
  let sA := (handleBatchExecution P "python" Demo.job Demo.echo_py ["hi"]
               10000 3000 s1).2 in
  piston_execute P rq Demo.boot = (Crash, sA)
  /\ responses (trace sA) = responses (trace Demo.boot)
  /\ rm_calls (trace sA) = rm_calls (trace Demo.boot)
  /\ mkdir_calls (trace sA) = mkdir_calls (trace Demo.boot) ++ [Demo.job].
Proof.
  intros P rq s1 sA.
  apply (stopped_job_leaves_workspace P rq Demo.boot s1 sA);
    vm_compute; reflexivity.
Defined.



Lemma negative_timeout_rejects_witness :
  let P := Demo.on_node Demo.looping in
  exists s',
    runCommand P "python3 main.py" Demo.job (-1) "hi" (Demo.workspace [])
      = (Throw (range_error Demo.looping (-1)), s')
    /\ world s' = world (Demo.workspace []).
Proof.
  intros P.
  apply (negative_timeout_rejects P Demo.looping eq_refl "python3 main.py"
           Demo.job (-1) "hi" (Demo.workspace [])).
  lia.
Defined.
